(** * Model selectors for Gaussian HMMs: a shallow embedding of
      [my_model_selectors.py]

    The four selectors ([SelectorConstant], [SelectorBIC], [SelectorDIC],
    [SelectorCV]) are embedded as computations in a state-and-exception
    monad over the Python frame of [select]: the selector instance [self],
    the lines printed so far, and the function-local variables that live
    across loop iterations.  Scores are IEEE-754 binary64 values, as Python
    floats are; the fitting library, the fold splitter and the numeric
    library are parameters of the development. *)

From Stdlib Require Import String ZArith List Bool Lia.
From Stdlib Require Import Floats.SpecFloat.
Import ListNotations.
Local Open Scope Z_scope.

(** ** Python floats *)

(** A Python float is a binary64: 53 bits of precision, infinities at
    exponent 1024. *)
Definition float : Type := spec_float.

Module PyFloat.

Definition prec : Z := 53.
Definition emax : Z := 1024.

Definition inf : float := S754_infinity false.      (* float('inf')  *)
Definition neg_inf : float := S754_infinity true.   (* float('-inf') *)

Definition add : float -> float -> float := SFadd prec emax.
Definition sub : float -> float -> float := SFsub prec emax.
Definition mul : float -> float -> float := SFmul prec emax.
Definition div : float -> float -> float := SFdiv prec emax.

(** [a < b], [a > b] and [a == b]; each is [False] when an operand is
    NaN. *)
Definition lt (a b : float) : bool := SFltb a b.
Definition gt (a b : float) : bool := SFltb b a.
Definition eqb (a b : float) : bool := SFeqb a b.

(** The double nearest to an integer (round to nearest, ties to even). *)
Definition of_Z (z : Z) : float := binary_normalize prec emax z 0 false.

Definition is_finite (x : float) : bool :=
  match x with
  | S754_zero _ | S754_finite _ _ _ => true
  | _ => false
  end.

End PyFloat.

(** ** Exceptions and results *)

Inductive exn : Type :=
| AttributeError      (* attribute access on [None] *)
| KeyError            (* missing dictionary key *)
| IndexError          (* list index out of range *)
| ZeroDivisionError
| OverflowError       (* int too large to convert to float *)
| UnboundLocalError   (* local variable read before assignment *)
| LibraryError (code : Z).  (* anything raised inside hmmlearn / sklearn *)

Inductive result (A : Type) : Type :=
| Ok (a : A)
| Raise (e : exn).
Arguments Ok {A} a.
Arguments Raise {A} e.

Definition is_ok {A} (r : result A) : bool :=
  match r with Ok _ => true | Raise _ => false end.

Definition rbind {A B} (r : result A) (k : A -> result B) : result B :=
  match r with
  | Ok a => k a
  | Raise e => Raise e
  end.

Fixpoint rmap_list {A B} (f : A -> result B) (l : list A) : result (list B) :=
  match l with
  | [] => Ok []
  | a :: l' => rbind (f a) (fun b => rbind (rmap_list f l') (fun bs => Ok (b :: bs)))
  end.

(** ** Python integers, ranges, lists and dictionaries *)

(** [range(lo, hi)]: the integers [lo, lo+1, ..., hi-1]; empty when
    [hi <= lo]. *)
Definition py_range (lo hi : Z) : list Z :=
  map (fun k => lo + Z.of_nat k) (seq 0 (Z.to_nat (hi - lo))).

Definition len {A} (l : list A) : Z := Z.of_nat (List.length l).

(** [l[i]], negative indices counting from the end. *)
Definition py_index {A} (l : list A) (i : Z) : result A :=
  let j := if i <? 0 then i + len l else i in
  if j <? 0 then Raise IndexError
  else match nth_error l (Z.to_nat j) with
       | Some a => Ok a
       | None => Raise IndexError
       end.

(** A [dict] with string keys, in insertion order (the order in which
    [keys()] iterates). *)
Definition dict (V : Type) : Type := list (string * V).

Definition keys {V} (d : dict V) : list string := map fst d.

Fixpoint dict_get {V} (d : dict V) (k : string) : result V :=
  match d with
  | [] => Raise KeyError
  | (k', v) :: d' => if String.eqb k' k then Ok v else dict_get d' k
  end.

(** Conversion of an [int] operand in mixed int/float arithmetic: the
    nearest double, or [OverflowError] when the int is too large for one. *)
Definition float_of_int (z : Z) : result float :=
  let x := PyFloat.of_Z z in
  if PyFloat.is_finite x then Ok x else Raise OverflowError.

(** [a / b] on two ints (true division).  The operands here are 1 and a
    dictionary size minus one, both exactly representable. *)
Definition int_truediv (a b : Z) : result float :=
  if b =? 0 then Raise ZeroDivisionError
  else Ok (PyFloat.div (PyFloat.of_Z a) (PyFloat.of_Z b)).

(** The builtin [sum] over a list of floats: starts from the int [0]. *)
Definition py_sum (l : list float) : float :=
  fold_left PyFloat.add l (PyFloat.of_Z 0).

(** The builtin [max(a, b, key=key)]: the first maximal argument, so [b]
    is returned only when [key(b) > key(a)]. *)
Definition py_max2 {A} (key : A -> float) (a b : A) : A :=
  if PyFloat.gt (key b) (key a) then b else a.

(** ** The state-and-exception monad

    A raised exception keeps every assignment made before it. *)

Section PyMonad.
Context {St : Type}.

Definition Py (A : Type) : Type := St -> result A * St.

Definition ret {A} (a : A) : Py A := fun s => (Ok a, s).

Definition raise {A} (e : exn) : Py A := fun s => (Raise e, s).

Definition bind {A B} (m : Py A) (k : A -> Py B) : Py B :=
  fun s =>
    match m s with
    | (Ok a, s') => k a s'
    | (Raise e, s') => (Raise e, s')
    end.

Definition lift {A} (r : result A) : Py A := fun s => (r, s).

Definition gets {A} (proj : St -> A) : Py A := fun s => (Ok (proj s), s).

Definition modify (f : St -> St) : Py unit := fun s => (Ok tt, f s).

(** [try: body  except: handler] (a bare [except] catches everything) *)
Definition try_except {A} (body handler : Py A) : Py A :=
  fun s =>
    match body s with
    | (Ok a, s') => (Ok a, s')
    | (Raise _, s') => handler s'
    end.

(** [try: body  except: pass] *)
Definition try_pass (body : Py unit) : Py unit :=
  try_except body (ret tt).

(** [[body(x) for x in l]] *)
Fixpoint for_list {A B} (l : list A) (body : A -> Py B) : Py (list B) :=
  match l with
  | [] => ret []
  | x :: l' =>
      bind (body x) (fun b => bind (for_list l' body) (fun bs => ret (b :: bs)))
  end.

(** [for x in l: body(x)] *)
Fixpoint for_each {A} (l : list A) (body : A -> Py unit) : Py unit :=
  match l with
  | [] => ret tt
  | x :: l' => bind (body x) (fun _ => for_each l' body)
  end.

End PyMonad.
Arguments Py St A : clear implicits.

Declare Scope py_scope.
Delimit Scope py_scope with py.
Notation "x <- c1 ;; c2" := (bind c1 (fun x => c2))
  (at level 61, c1 at next level, right associativity) : py_scope.
Notation "' pat <- c1 ;; c2" := (bind c1 (fun x => match x with pat => c2 end))
  (at level 61, pat pattern, c1 at next level, right associativity) : py_scope.
Notation "c1 ;; c2" := (bind c1 (fun _ => c2))
  (at level 61, right associativity) : py_scope.

Local Open Scope py_scope.

(** ** The data model *)

(** A flattened corpus entry [(X, lengths)]; [obs] is one feature vector. *)
Definition Xlengths (obs : Type) : Type := (list obs * list Z)%type.

(** A fitted [GaussianHMM]: the constructor arguments and what [fit]
    stored in the object ([fit] returns the object itself).  [params], the
    learned parameters, are opaque here. *)
Record GaussianHMM (params : Type) : Type := mkGaussianHMM {
  n_components : Z;
  covariance_type : string;
  n_iter : Z;
  hmm_random_state : Z;
  fitted : params
}.
Arguments mkGaussianHMM {params}.
Arguments n_components {params}.
Arguments covariance_type {params}.
Arguments n_iter {params}.
Arguments hmm_random_state {params}.
Arguments fitted {params}.

(** The selector instance, with the fields [__init__] sets. *)
Record ModelSelector (obs : Type) : Type := mkModelSelector {
  words : dict (list (list obs));
  hwords : dict (Xlengths obs);
  sequences : list (list obs);
  X : list obs;
  lengths : list Z;
  this_word : string;
  n_constant : Z;
  min_n_components : Z;
  max_n_components : Z;
  random_state : Z;
  verbose : bool
}.
Arguments mkModelSelector {obs}.
Arguments words {obs}.
Arguments hwords {obs}.
Arguments sequences {obs}.
Arguments X {obs}.
Arguments lengths {obs}.
Arguments this_word {obs}.
Arguments n_constant {obs}.
Arguments min_n_components {obs}.
Arguments max_n_components {obs}.
Arguments random_state {obs}.
Arguments verbose {obs}.

(** The lines [base_model] prints in verbose mode. *)
Inductive line : Type :=
| model_created (word : string) (num_states : Z)
    (* "model created for {} with {} states" *)
| failure_on (word : string) (num_states : Z).
    (* "failure on {} with {} states" *)

Definition line_states (l : line) : Z :=
  match l with
  | model_created _ n | failure_on _ n => n
  end.

(** The frame of a running [select]: the instance, standard output, and
    the locals [best_model] and [hmm_model].  A local is unbound ([None])
    until its first assignment; Python's [None] is the inner [None]. *)
Record Frame (obs params : Type) : Type := mkFrame {
  self : ModelSelector obs;
  stdout : list line;
  best_model : option (option (GaussianHMM params) * float);
  hmm_model : option (option (GaussianHMM params))
}.
Arguments mkFrame {obs params}.
Arguments self {obs params}.
Arguments stdout {obs params}.
Arguments best_model {obs params}.
Arguments hmm_model {obs params}.

(** The external collaborators: hmmlearn, numpy and sklearn. *)
Record Library (obs params : Type) : Type := mkLibrary {
  (** [GaussianHMM(n_components, covariance_type, n_iter, random_state)
      .fit(X, lengths)] *)
  hmm_fit : Z -> string -> Z -> Z -> list obs -> list Z -> result params;
  (** [hmm_model.score(X, lengths)] *)
  hmm_score : GaussianHMM params -> list obs -> list Z -> result float;
  (** [hmm_model.n_features] *)
  hmm_n_features : params -> Z;
  (** [np.log] on an int, [np.mean] on a list of floats *)
  np_log : Z -> float;
  np_mean : list float -> float;
  (** [KFold().split(sequences)]: the (train, test) index lists, in order.
      Without shuffling the split is a function of its argument. *)
  kf_split : list (list obs) -> result (list (list Z * list Z))
}.
Arguments mkLibrary {obs params}.
Arguments hmm_fit {obs params}.
Arguments hmm_score {obs params}.
Arguments hmm_n_features {obs params}.
Arguments np_log {obs params}.
Arguments np_mean {obs params}.
Arguments kf_split {obs params}.

(** ** The selectors *)

Section Selectors.

Context {obs params : Type} (lib : Library obs params).

(** Modelled from the spec: [combine_sequences] of [asl_utils], the
    sequence-concatenation helper that, given a subset of per-utterance
    sequences (by index), returns a single concatenated feature matrix
    plus the segment lengths. *)
Definition combine_sequences (split_index_list : list Z)
    (sequences : list (list obs)) : result (Xlengths obs) :=
  rbind (rmap_list (py_index sequences) split_index_list)
        (fun sequences_fold => Ok (concat sequences_fold, map len sequences_fold)).

(** [ModelSelector.__init__] *)
Definition ModelSelector_init
    (all_word_sequences : dict (list (list obs)))
    (all_word_Xlengths : dict (Xlengths obs)) (this_word : string)
    (n_constant min_n_components max_n_components random_state : Z)
    (verbose : bool) : result (ModelSelector obs) :=
  rbind (dict_get all_word_sequences this_word) (fun sequences =>
  rbind (dict_get all_word_Xlengths this_word) (fun xl =>
  Ok (mkModelSelector all_word_sequences all_word_Xlengths sequences
        (fst xl) (snd xl) this_word n_constant
        min_n_components max_n_components random_state verbose))).

(** [self.X, self.lengths = xl] *)
Definition set_X_lengths (xl : Xlengths obs) (s : ModelSelector obs)
  : ModelSelector obs :=
  mkModelSelector (words s) (hwords s) (sequences s) (fst xl) (snd xl)
    (this_word s) (n_constant s) (min_n_components s) (max_n_components s)
    (random_state s) (verbose s).

Definition PyF : Type -> Type := Py (Frame obs params).

Definition set_self (g : ModelSelector obs -> ModelSelector obs) : PyF unit :=
  modify (fun f => mkFrame (g (self f)) (stdout f) (best_model f) (hmm_model f)).
Definition print (l : line) : PyF unit :=
  modify (fun f => mkFrame (self f) (stdout f ++ [l]) (best_model f) (hmm_model f)).
Definition set_best_model (b : option (GaussianHMM params) * float) : PyF unit :=
  modify (fun f => mkFrame (self f) (stdout f) (Some b) (hmm_model f)).
Definition set_hmm_model (m : option (GaussianHMM params)) : PyF unit :=
  modify (fun f => mkFrame (self f) (stdout f) (best_model f) (Some m)).

Definition read_local {A} (proj : Frame obs params -> option A) : PyF A :=
  v <- gets proj ;;
  match v with
  | Some a => ret a
  | None => raise UnboundLocalError
  end.

(** [m.score(X, lengths)] and [m.n_features], where [m] may be [None] *)
Definition call_score (m : option (GaussianHMM params)) (X : list obs)
    (lengths : list Z) : PyF float :=
  match m with
  | Some hmm => lift (hmm_score lib hmm X lengths)
  | None => raise AttributeError
  end.
Definition attr_n_features (m : option (GaussianHMM params)) : PyF Z :=
  match m with
  | Some hmm => ret (hmm_n_features lib (fitted hmm))
  | None => raise AttributeError
  end.

(** A method call on the instance [s]: a frame with no local bound. *)
Definition call {A} (method : PyF A) (s : ModelSelector obs) (out : list line)
  : result A * ModelSelector obs * list line :=
  let '(r, f) := method (mkFrame s out None None) in
  (r, self f, stdout f).

(** *** [ModelSelector.base_model] *)

Definition base_model (num_states : Z) : PyF (option (GaussianHMM params)) :=
  try_except
    (s <- gets self ;;
     p <- lift (hmm_fit lib num_states "diag" 1000 (random_state s) (X s) (lengths s)) ;;
     (if verbose s then print (model_created (this_word s) num_states) else ret tt) ;;
     ret (Some (mkGaussianHMM num_states "diag" 1000 (random_state s) p)))
    (s <- gets self ;;
     (if verbose s then print (failure_on (this_word s) num_states) else ret tt) ;;
     ret None).

(** *** [SelectorConstant.select] *)

Definition SelectorConstant_select : PyF (option (GaussianHMM params)) :=
  s <- gets self ;;
  let best_num_components := n_constant s in
  base_model best_num_components.

(** *** [SelectorBIC.select] *)

Definition SelectorBIC_body (n : Z) : PyF unit :=
  m <- base_model n ;; set_hmm_model m ;;
  hm <- read_local hmm_model ;; s <- gets self ;;
  logL <- call_score hm (X s) (lengths s) ;;
  s <- gets self ;;
  let logN := np_log lib (len (lengths s)) in
  hm <- read_local hmm_model ;;
  n_features <- attr_n_features hm ;;
  let p := n ^ 2 + 2 * n * n_features - 1 in
  minus_two <- lift (float_of_int (-2)) ;;
  p' <- lift (float_of_int p) ;;
  let score := PyFloat.add (PyFloat.mul minus_two logL) (PyFloat.mul p' logN) in
  best <- read_local best_model ;;
  if PyFloat.gt (snd best) score then
    hm <- read_local hmm_model ;; set_best_model (hm, score)
  else ret tt.

Definition SelectorBIC_select : PyF (option (GaussianHMM params)) :=
  set_best_model (None, PyFloat.inf) ;;
  s <- gets self ;;
  for_each (py_range (min_n_components s) (max_n_components s))
           (fun n => try_pass (SelectorBIC_body n)) ;;
  best <- read_local best_model ;;
  ret (fst best).

(** *** [SelectorDIC.select] *)

Definition SelectorDIC_body (n : Z) : PyF unit :=
  m <- base_model n ;; set_hmm_model m ;;
  s <- gets self ;;
  let M := len (keys (words s)) in
  hm <- read_local hmm_model ;;
  logL <- call_score hm (X s) (lengths s) ;;
  scores <- for_list (keys (words s)) (fun w =>
              s <- gets self ;;
              xl <- lift (dict_get (hwords s) w) ;;
              hm <- read_local hmm_model ;;
              call_score hm (fst xl) (snd xl)) ;;
  let log_sum := py_sum scores in
  inv <- lift (int_truediv 1 (M - 1)) ;;
  let score := PyFloat.sub logL (PyFloat.mul inv (PyFloat.sub log_sum logL)) in
  best <- read_local best_model ;;
  if PyFloat.lt (snd best) score then
    hm <- read_local hmm_model ;; set_best_model (hm, score)
  else ret tt.

Definition SelectorDIC_select : PyF (option (GaussianHMM params)) :=
  set_best_model (None, PyFloat.neg_inf) ;;
  s <- gets self ;;
  for_each (py_range (min_n_components s) (max_n_components s))
           (fun n => try_pass (SelectorDIC_body n)) ;;
  best <- read_local best_model ;;
  ret (fst best).

(** *** [SelectorCV.select] *)

(** The body of the loop over the folds, up to the log-likelihood that
    is appended to [scores]. *)
Definition SelectorCV_fold (n : Z) (fold : list Z * list Z) : PyF float :=
  let '(i_train, i_test) := fold in
  s <- gets self ;;
  xl <- lift (combine_sequences i_train (sequences s)) ;;
  set_self (set_X_lengths xl) ;;
  s <- gets self ;;
  test <- lift (combine_sequences i_test (sequences s)) ;;
  m <- base_model n ;; set_hmm_model m ;;
  hm <- read_local hmm_model ;;
  call_score hm (fst test) (snd test).

(** The loop over the folds; [scores] is the list built by [append]. *)
Fixpoint SelectorCV_folds (n : Z) (folds : list (list Z * list Z))
    (scores : list float) : PyF (list float) :=
  match folds with
  | [] => ret scores
  | fold :: rest =>
      log_likelihood <- SelectorCV_fold n fold ;;
      SelectorCV_folds n rest (scores ++ [log_likelihood])
  end.

(** One iteration of the loop over [n], inside its [try].  [curr = None]
    is overwritten on every path before it is read. *)
Definition SelectorCV_body (n : Z) : PyF unit :=
  s <- gets self ;;
  curr <- (if len (sequences s) >? 2 then
             folds <- lift (kf_split lib (sequences s)) ;;
             scores <- SelectorCV_folds n folds [] ;;
             hm <- read_local hmm_model ;;
             ret (hm, np_mean lib scores)
           else
             m <- base_model n ;; set_hmm_model m ;;
             hm <- read_local hmm_model ;; s <- gets self ;;
             score <- call_score hm (X s) (lengths s) ;;
             hm <- read_local hmm_model ;;
             ret (hm, score)) ;;
  best <- read_local best_model ;;
  set_best_model (py_max2 snd best curr).

(** [kf = KFold()] only fixes the splitter, which is [kf_split]. *)
Definition SelectorCV_select : PyF (option (GaussianHMM params)) :=
  set_best_model (None, PyFloat.neg_inf) ;;
  s <- gets self ;;
  for_each (py_range (min_n_components s) (max_n_components s + 1))
           (fun n => try_pass (SelectorCV_body n)) ;;
  best <- read_local best_model ;;
  ret (fst best).

(** *** What the spec says each candidate is

    The definitions below follow the spec's wording (sections 4.4 to
    4.6); the theorems relate them to the [select] methods above. *)

(** A candidate with [n] states fitted on [(X, lengths)]. *)
Definition fit_candidate (s : ModelSelector obs) (n : Z) (X : list obs)
    (lengths : list Z) : result (GaussianHMM params) :=
  rbind (hmm_fit lib n "diag" 1000 (random_state s) X lengths)
        (fun p => Ok (mkGaussianHMM n "diag" 1000 (random_state s) p)).

(** [p = n^2 + 2 n numFeatures - 1] *)
Definition BIC_free_parameters (n numFeatures : Z) : Z :=
  n ^ 2 + 2 * n * numFeatures - 1.

(** [BIC = -2 logL + p log(numSequences)] *)
Definition BIC_score (n numFeatures : Z) (logL : float) (numSequences : Z)
  : result float :=
  rbind (float_of_int (BIC_free_parameters n numFeatures)) (fun p =>
  Ok (PyFloat.add (PyFloat.mul (PyFloat.of_Z (-2)) logL)
                  (PyFloat.mul p (np_log lib numSequences)))).

(** The BIC candidate for [n]: fitted on the item's own full data, scored
    on the same data. *)
Definition BIC_candidate (s : ModelSelector obs) (n : Z)
  : result (GaussianHMM params * float) :=
  rbind (fit_candidate s n (X s) (lengths s)) (fun m =>
  rbind (hmm_score lib m (X s) (lengths s)) (fun logL =>
  rbind (BIC_score n (hmm_n_features lib (fitted m)) logL (len (lengths s)))
        (fun bic => Ok (m, bic)))).

(** The lines [base_model] prints for one fit on [(X, lengths)]. *)
Definition base_model_lines (s : ModelSelector obs) (n : Z) (X : list obs)
    (lengths : list Z) : list line :=
  if verbose s then
    [if is_ok (fit_candidate s n X lengths)
     then model_created (this_word s) n else failure_on (this_word s) n]
  else [].

(** Running search: a candidate replaces the running best exactly when
    its score is [better] than the best so far; a failed candidate is
    skipped. *)
Definition search_step (better : float -> float -> bool)
    (best : option (GaussianHMM params) * float)
    (c : result (GaussianHMM params * float))
  : option (GaussianHMM params) * float :=
  match c with
  | Ok (m, score) => if better score (snd best) then (Some m, score) else best
  | Raise _ => best
  end.

Definition search (better : float -> float -> bool)
    (init : option (GaussianHMM params) * float)
    (candidates : list (result (GaussianHMM params * float)))
  : option (GaussianHMM params) * float :=
  fold_left (search_step better) candidates init.

(** What a search over the state counts [lo .. hi] returns, as a property
    of the value [r]: [None] when no successful candidate beats the
    sentinel; otherwise a successful candidate that beats the sentinel,
    that no successful candidate beats, and that no candidate of a lower
    state count ties with. *)
Definition outcome (better : float -> float -> bool) (sentinel : float)
    (cand : Z -> result (GaussianHMM params * float)) (lo hi : Z)
    (r : option (GaussianHMM params)) : Prop :=
  match r with
  | None =>
      forall n m sc, lo <= n <= hi -> cand n = Ok (m, sc) ->
                     better sc sentinel = false
  | Some m =>
      exists n sc,
        lo <= n <= hi /\ cand n = Ok (m, sc) /\ better sc sentinel = true /\
        (forall n' m' sc', lo <= n' <= hi -> cand n' = Ok (m', sc') ->
                           better sc' sc = false) /\
        (forall n' m' sc', lo <= n' < n -> cand n' = Ok (m', sc') ->
                           PyFloat.eqb sc' sc = false)
  end.

(** [DIC = logL - (1/(M-1)) (sumOverAll - logL)] *)
Definition DIC_score (logL sumOverAll : float) (M : Z) : result float :=
  rbind (int_truediv 1 (M - 1)) (fun inv =>
  Ok (PyFloat.sub logL (PyFloat.mul inv (PyFloat.sub sumOverAll logL)))).

(** The candidate's score on every vocabulary item of the corpus, in the
    order of the corpus, each on the item's flattened data. *)
Definition corpus_scores (s : ModelSelector obs) (m : GaussianHMM params)
  : result (list float) :=
  rmap_list (fun w => rbind (dict_get (hwords s) w)
                        (fun xl => hmm_score lib m (fst xl) (snd xl)))
            (keys (words s)).

(** The DIC candidate for [n]: fitted on the item's own data, [logL] on
    the same data, the sum over the whole corpus, [M] the vocabulary
    size. *)
Definition DIC_candidate (s : ModelSelector obs) (n : Z)
  : result (GaussianHMM params * float) :=
  rbind (fit_candidate s n (X s) (lengths s)) (fun m =>
  rbind (hmm_score lib m (X s) (lengths s)) (fun logL =>
  rbind (corpus_scores s m) (fun scores =>
  rbind (DIC_score logL (py_sum scores) (len (keys (words s))))
        (fun dic => Ok (m, dic))))).

(** One fold of cross-validation for [n]: fit on the concatenated
    training sequences, score on the concatenated held-out sequences. *)
Definition CV_fold_candidate (s : ModelSelector obs) (n : Z)
    (fold : list Z * list Z) : result (GaussianHMM params * float) :=
  rbind (combine_sequences (fst fold) (sequences s)) (fun train =>
  rbind (combine_sequences (snd fold) (sequences s)) (fun test =>
  rbind (fit_candidate s n (fst train) (snd train)) (fun m =>
  rbind (hmm_score lib m (fst test) (snd test)) (fun log_likelihood =>
  Ok (m, log_likelihood))))).

(** All folds in order: the model of the last fold and one
    log-likelihood per fold. *)
Fixpoint CV_folds_eval (s : ModelSelector obs) (n : Z)
    (folds : list (list Z * list Z)) (last : option (GaussianHMM params))
    (scores : list float) : result (option (GaussianHMM params) * list float) :=
  match folds with
  | [] => Ok (last, scores)
  | fold :: rest =>
      rbind (CV_fold_candidate s n fold) (fun c =>
      CV_folds_eval s n rest (Some (fst c)) (scores ++ [snd c]))
  end.

(** The fallback candidate for [n]: fitted on the item's full flattened
    data and scored against that same data. *)
Definition full_data_candidate (s : ModelSelector obs) (n : Z)
  : result (GaussianHMM params * float) :=
  rbind (fit_candidate s n (X s) (lengths s)) (fun m =>
  rbind (hmm_score lib m (X s) (lengths s)) (fun score => Ok (m, score))).

(** The cross-validated candidate for [n]: with more than two sequences
    the last fold's model and the mean fold score; otherwise the
    fallback candidate. *)
Definition CV_candidate (s : ModelSelector obs) (n : Z)
  : result (GaussianHMM params * float) :=
  if len (sequences s) >? 2 then
    rbind (kf_split lib (sequences s)) (fun folds =>
    rbind (CV_folds_eval s n folds None []) (fun r =>
    match fst r with
    | Some m => Ok (m, np_mean lib (snd r))
    | None => Raise UnboundLocalError
    end))
  else full_data_candidate s n.

(** The fold at which the fold loop for [n] stops: the first fold that
    raises, or the last fold when none does. *)
Fixpoint last_processed_fold (s : ModelSelector obs) (n : Z)
    (folds : list (list Z * list Z)) : option (list Z * list Z) :=
  match folds with
  | [] => None
  | fold :: rest =>
      if is_ok (CV_fold_candidate s n fold) then
        match rest with
        | [] => Some fold
        | _ => last_processed_fold s n rest
        end
      else Some fold
  end.

Definition to_option {A} (r : result A) : option A :=
  match r with Ok a => Some a | Raise _ => None end.

(** The training indices of [fold] can be concatenated. *)
Definition train_combines (s : ModelSelector obs) (fold : list Z * list Z) : Prop :=
  is_ok (combine_sequences (fst fold) (sequences s)) = true.

(** An iteration of the cross-validation loop gets as far as its first
    call of [base_model]: always with at most two sequences, otherwise
    when the split yields a first fold whose index lists can both be
    concatenated. *)
Definition CV_reaches_fit (s : ModelSelector obs) : bool :=
  if len (sequences s) >? 2 then
    match kf_split lib (sequences s) with
    | Ok (fold :: _) =>
        is_ok (combine_sequences (fst fold) (sequences s)) &&
        is_ok (combine_sequences (snd fold) (sequences s))
    | _ => false
    end
  else true.

(** [hmm_model] is still unbound if the fold loop can never bind it. *)
Definition CV_inv (f : Frame obs params) : Prop :=
  (len (sequences (self f)) >? 2) = true ->
  kf_split lib (sequences (self f)) = Ok [] ->
  hmm_model f = None.

(** The configuration fields of an instance are the constructor's
    arguments. *)
Definition configured_with (s : ModelSelector obs) (word : string)
    (n_const min_n max_n seed : Z) (verb : bool) : Prop :=
  this_word s = word /\ n_constant s = n_const /\
  min_n_components s = min_n /\ max_n_components s = max_n /\
  random_state s = seed /\ verbose s = verb.

(** The instance as [__init__] would have built it with [verbose = b]. *)
Definition set_verbose (b : bool) (s : ModelSelector obs) : ModelSelector obs :=
  mkModelSelector (words s) (hwords s) (sequences s) (X s) (lengths s)
    (this_word s) (n_constant s) (min_n_components s) (max_n_components s)
    (random_state s) b.

End Selectors.

(** ** A small concrete world

    A stand-in library and a two-word corpus, used to run the selectors on
    concrete inputs. *)

Module Toy.

(** Observations are integers; the learned parameters are just the
    number of features. *)
Definition fit (trainable : Z -> bool)
  : Z -> string -> Z -> Z -> list Z -> list Z -> result Z :=
  fun n _ _ _ _ _ => if trainable n then Ok 1 else Raise (LibraryError 0).

Definition score (logL : Z -> list Z -> float)
  : GaussianHMM Z -> list Z -> list Z -> result float :=
  fun m X _ => Ok (logL (n_components m) X).

Definition log (k : Z) : float := PyFloat.of_Z (Z.log2 k).

Definition mean (l : list float) : float :=
  PyFloat.div (py_sum l) (PyFloat.of_Z (len l)).

(** Three consecutive folds, the first [n mod 3] one element longer;
    fewer than three samples is an error. *)
Definition kfold3 (samples : list (list Z)) : result (list (list Z * list Z)) :=
  let n := len samples in
  if n <? 3 then Raise (LibraryError 1)
  else
    let size := fun i => n / 3 + (if i <? n mod 3 then 1 else 0) in
    let start := fun i => fold_right Z.add 0 (map size (py_range 0 i)) in
    Ok (map (fun i =>
               (filter (fun j => (j <? start i) || (start i + size i <=? j))
                       (py_range 0 n),
                py_range (start i) (start i + size i)))
            (py_range 0 3)).

Definition lib (trainable : Z -> bool) (logL : Z -> list Z -> float)
  : Library Z Z :=
  mkLibrary (fit trainable) (score logL) (fun p => p) log mean kfold3.

(** The corpus: JOHN has three utterances, BOOK has two. *)
Definition john : list (list Z) := [[1; 2]; [3]; [4; 5; 6]].
Definition book : list (list Z) := [[7]; [8; 9]].

Definition all_word_sequences : dict (list (list Z)) :=
  [("JOHN"%string, john); ("BOOK"%string, book)].
Definition all_word_Xlengths : dict (Xlengths Z) :=
  [("JOHN"%string, ([1; 2; 3; 4; 5; 6], [2; 1; 3]));
   ("BOOK"%string, ([7; 8; 9], [1; 2]))].

(** Selector instances as [__init__] builds them, with
    [min_n_components = 2], [max_n_components = 4] and verbose output. *)
Definition selector_for (word : string) (n_constant : Z) : ModelSelector Z :=
  match ModelSelector_init all_word_sequences all_word_Xlengths word
          n_constant 2 4 14 true with
  | Ok s => s
  | Raise _ => mkModelSelector [] [] [] [] [] word n_constant 2 4 14 true
  end.

Definition john_selector : ModelSelector Z := selector_for "JOHN" 3.
Definition book_selector : ModelSelector Z := selector_for "BOOK" 3.

(** A corpus with JOHN as its only word. *)
Definition lonely_selector : ModelSelector Z :=
  mkModelSelector [("JOHN"%string, john)]
    [("JOHN"%string, ([1; 2; 3; 4; 5; 6], [2; 1; 3]))]
    john [1; 2; 3; 4; 5; 6] [2; 1; 3] "JOHN" 3 2 4 14 true.


Definition always (_ : Z) : bool := true.

(** The model [fit] produces for [n] states. *)
Definition model (n : Z) : GaussianHMM Z := mkGaussianHMM n "diag" 1000 14 1.

(** Log-likelihoods: 2 and 3 states score the same, 4 states worse. *)
Definition tied_logL (n : Z) (_ : list Z) : float :=
  if n <=? 3 then PyFloat.of_Z (-5) else PyFloat.of_Z (-9).

(** Log-likelihoods giving 2 and 3 states the same BIC on JOHN:
    [10 + 7 = 3 + 14]. *)
Definition bic_tied_logL (n : Z) (_ : list Z) : float :=
  if n =? 2 then PyFloat.of_Z (-5)
  else PyFloat.div (PyFloat.of_Z (-3)) (PyFloat.of_Z 2).

(** Log-likelihoods that depend on the data: minus the number of states
    times the number of observations. *)
Definition size_logL (n : Z) (X : list Z) : float :=
  PyFloat.of_Z (- (n * len X)).

Definition tied_lib : Library Z Z := lib always tied_logL.
Definition bic_tied_lib : Library Z Z := lib always bic_tied_logL.
Definition size_lib : Library Z Z := lib always size_logL.

(** The three folds of JOHN. *)
Definition john_folds : list (list Z * list Z) :=
  [([1; 2], [0]); ([0; 2], [1]); ([0; 1], [2])].

(** JOHN with [min_n_components = max_n_components = 3]. *)
Definition equal_range_selector : ModelSelector Z :=
  mkModelSelector all_word_sequences all_word_Xlengths
    john [1; 2; 3; 4; 5; 6] [2; 1; 3] "JOHN" 3 3 3 14 true.

(** A splitter that wants more samples than any word has. *)
Definition failing_split (_ : list (list Z)) : result (list (list Z * list Z)) :=
  Raise (LibraryError 1).
Definition failing_split_lib : Library Z Z :=
  mkLibrary (fit always) (score size_logL) (fun p => p) log mean failing_split.

End Toy.

(** * Properties *)

(** ** The order on floats *)

Ltac sf_cases :=
  repeat match goal with
  | |- context [Z.compare ?a ?b] => destruct (Z.compare_spec a b); subst
  | H : context [Z.compare ?a ?b] |- _ => destruct (Z.compare_spec a b); subst
  | |- context [Pos.compare_cont Eq ?a ?b] =>
      change (Pos.compare_cont Eq a b) with (Pos.compare a b)
  | H : context [Pos.compare_cont Eq ?a ?b] |- _ =>
      change (Pos.compare_cont Eq a b) with (Pos.compare a b) in H
  | |- context [Pos.compare ?a ?b] => destruct (Pos.compare_spec a b); subst
  | H : context [Pos.compare ?a ?b] |- _ => destruct (Pos.compare_spec a b); subst
  end; simpl in *; try discriminate; try reflexivity; try lia.

Ltac sf_destruct a b c :=
  unfold PyFloat.lt, PyFloat.gt, PyFloat.eqb, SFltb, SFeqb, SFcompare;
  destruct a as [[]|[]| |[] ? ?], b as [[]|[]| |[] ? ?], c as [[]|[]| |[] ? ?];
  simpl; intros; try discriminate; try reflexivity; sf_cases.

(** One step of symbolic execution in the monad. *)
Ltac run_py :=
  unfold read_local, call_score, attr_n_features, set_best_model,
    set_hmm_model, set_self, print;
  unfold bind, gets, modify, lift, raise, ret; cbv beta.

(** Closes a goal about the frame a finished computation [E] left. *)
Ltac quiet_done E := inversion E; subst; simpl; auto.

(** A closed equation settled by evaluation. *)
Ltac run := vm_compute; reflexivity.

Lemma lt_irrefl (a : float) : PyFloat.lt a a = false.
Proof.
  unfold PyFloat.lt, SFltb, SFcompare.
  destruct a as [[]|[]| |[] m e]; simpl; try reflexivity;
    rewrite Z.compare_refl;
    change (Pos.compare_cont Eq m m) with (Pos.compare m m);
    rewrite Pos.compare_refl; reflexivity.
Qed.

Lemma lt_trans (a b c : float) :
  PyFloat.lt a b = true -> PyFloat.lt b c = true -> PyFloat.lt a c = true.
Proof. sf_destruct a b c. Qed.

(** A tie ([a == b]) can stand in for either side of a strict comparison. *)
Lemma lt_eqb_l (a b c : float) :
  PyFloat.eqb a b = true -> PyFloat.lt b c = true -> PyFloat.lt a c = true.
Proof. sf_destruct a b c. Qed.

Lemma lt_eqb_r (a b c : float) :
  PyFloat.eqb a b = true -> PyFloat.lt c b = true -> PyFloat.lt c a = true.
Proof. sf_destruct a b c. Qed.

(** ** The running search *)

Section Search.

Context {params : Type}.
Variable better : float -> float -> bool.
Hypothesis better_irrefl : forall a, better a a = false.
Hypothesis better_trans : forall a b c,
  better a b = true -> better b c = true -> better a c = true.
Hypothesis better_tie : forall a b c,
  PyFloat.eqb a b = true -> better b c = true -> better a c = true.

Lemma search_snoc (init : option (GaussianHMM params) * float) l c :
  search better init (l ++ [c]) = search_step better (search better init l) c.
Proof. unfold search. now rewrite fold_left_app. Qed.

(** The outcome of a search started from the sentinel [(None, s0)]:
    either nothing beat the sentinel, or the winner is a successful
    candidate that beat it, that no successful candidate beats, and that
    no earlier successful candidate ties with. *)
Lemma search_spec (s0 : float) cands :
  match search better (@None (GaussianHMM params), s0) cands with
  | (None, sc) =>
      sc = s0 /\ forall m s, In (Ok (m, s)) cands -> better s s0 = false
  | (Some m, sc) =>
      exists pre post,
        cands = pre ++ Ok (m, sc) :: post /\
        better sc s0 = true /\
        (forall m' s', In (Ok (m', s')) cands -> better s' sc = false) /\
        (forall m' s', In (Ok (m', s')) pre -> PyFloat.eqb s' sc = false)
  end.
Proof.
  induction cands as [|c l IH] using rev_ind.
  - simpl. split; [reflexivity | intros ? ? []].
  - rewrite search_snoc.
    destruct (search better (None, s0) l) as [[m|] sc] eqn:E.
    + destruct IH as (pre & post & -> & Hs0 & Hbest & Htie).
      destruct c as [[m2 s2]|e]; simpl.
      * destruct (better s2 sc) eqn:B.
        -- exists (pre ++ Ok (m, sc) :: post), []. repeat split.
           ++ eauto.
           ++ intros m' s' Hin. apply in_app_or in Hin as [Hin|[Hin|[]]].
              ** destruct (better s' s2) eqn:B2; [|reflexivity].
                 rewrite <- (Hbest m' s' Hin). symmetry. eauto.
              ** inversion Hin; subst. apply better_irrefl.
           ++ intros m' s' Hin.
              destruct (PyFloat.eqb s' s2) eqn:T; [|reflexivity].
              rewrite <- (Hbest m' s' Hin). symmetry. eauto.
        -- exists pre, (post ++ [Ok (m2, s2)]). repeat split; auto.
           ++ now rewrite <- app_assoc.
           ++ intros m' s' Hin. apply in_app_or in Hin as [Hin|[Hin|[]]].
              ** eauto.
              ** now inversion Hin; subst.
      * exists pre, (post ++ [Raise e]). repeat split; auto.
        -- now rewrite <- app_assoc.
        -- intros m' s' Hin. apply in_app_or in Hin as [Hin|[Hin|[]]];
             [eauto | discriminate].
    + destruct IH as (-> & Hnone).
      destruct c as [[m2 s2]|e]; simpl.
      * destruct (better s2 s0) eqn:B.
        -- exists l, []. repeat split; auto.
           ++ intros m' s' Hin. apply in_app_or in Hin as [Hin|[Hin|[]]].
              ** destruct (better s' s2) eqn:B2; [|reflexivity].
                 rewrite <- (Hnone m' s' Hin). symmetry. eauto.
              ** inversion Hin; subst. apply better_irrefl.
           ++ intros m' s' Hin.
              destruct (PyFloat.eqb s' s2) eqn:T; [|reflexivity].
              rewrite <- (Hnone m' s' Hin). symmetry. eauto.
        -- split; [reflexivity|].
           intros m' s' Hin. apply in_app_or in Hin as [Hin|[Hin|[]]].
           ++ eauto.
           ++ now inversion Hin; subst.
      * split; [reflexivity|].
        intros m' s' Hin. apply in_app_or in Hin as [Hin|[Hin|[]]];
          [eauto | discriminate].
Qed.

End Search.

(** ** The [select] methods as searches over candidates *)

Section Refinement.

Context {obs params : Type} (lib : Library obs params).

Lemma frame_eta (f : Frame obs params) :
  mkFrame (self f) (stdout f) (best_model f) (hmm_model f) = f.
Proof. now destruct f. Qed.

(** [base_model] never raises: it returns the fitted candidate or
    [None], prints at most one line, and touches nothing else. *)
Lemma base_model_spec n (f : Frame obs params) :
  base_model lib n f =
    (Ok (to_option (fit_candidate lib (self f) n (X (self f)) (lengths (self f)))),
     mkFrame (self f)
             (stdout f ++ base_model_lines lib (self f) n (X (self f)) (lengths (self f)))
             (best_model f) (hmm_model f)).
Proof.
  unfold base_model, base_model_lines, fit_candidate, try_except, bind, gets,
    lift, print, modify, ret.
  destruct (hmm_fit lib n "diag" 1000 _ _ _) as [p|e]; simpl;
    destruct (verbose (self f)); simpl; rewrite ?app_nil_r, ?frame_eta;
    reflexivity.
Qed.

(** One iteration of the BIC loop is one step of the search. *)
Lemma BIC_body_spec n (f : Frame obs params) b :
  best_model f = Some b ->
  exists hm,
    try_pass (SelectorBIC_body lib n) f =
      (Ok tt,
       mkFrame (self f)
         (stdout f ++ base_model_lines lib (self f) n (X (self f)) (lengths (self f)))
         (Some (search_step PyFloat.lt b (BIC_candidate lib (self f) n)))
         (Some hm)).
Proof.
  intros Hb.
  unfold try_pass, try_except, SelectorBIC_body, bind at 1.
  rewrite base_model_spec.
  unfold BIC_candidate, BIC_score, BIC_free_parameters.
  destruct (fit_candidate lib (self f) n _ _) as [m|e]; simpl.
  - unfold bind, set_hmm_model, modify, read_local, gets, call_score, lift,
      attr_n_features, ret; simpl.
    destruct (hmm_score lib m _ _) as [logL|e]; simpl; [|rewrite Hb; eauto].
    destruct (float_of_int _) as [p|e]; simpl; [|rewrite Hb; eauto].
    rewrite Hb; simpl. unfold PyFloat.gt, PyFloat.lt.
    destruct (SFltb _ (snd b)); simpl; eauto.
  - unfold bind, set_hmm_model, modify, read_local, gets, call_score, lift,
      raise, ret; simpl. rewrite Hb; eauto.
Qed.

(** A loop whose body is a search step is a search. *)
Lemma search_loop (body : Z -> PyF unit) better
    (cand : ModelSelector obs -> Z -> result (GaussianHMM params * float))
    (lines : ModelSelector obs -> Z -> list line) :
  (forall n (f : Frame obs params) b, best_model f = Some b ->
     exists hm, body n f =
       (Ok tt, mkFrame (self f) (stdout f ++ lines (self f) n)
                 (Some (search_step better b (cand (self f) n))) (Some hm))) ->
  forall l (f : Frame obs params) b, best_model f = Some b ->
    exists hm, for_each l body f =
      (Ok tt, mkFrame (self f) (stdout f ++ flat_map (lines (self f)) l)
                (Some (search better b (map (cand (self f)) l))) hm).
Proof.
  intros Hbody l. induction l as [|n l IH]; intros f b Hb.
  - exists (hmm_model f). simpl. unfold ret.
    now rewrite app_nil_r, <- Hb, frame_eta.
  - destruct (Hbody n f b Hb) as [hm E].
    simpl. unfold bind at 1. rewrite E.
    match type of E with _ = (_, ?f1) =>
      destruct (IH f1 _ eq_refl) as [hm' E'] end.
    rewrite E'. simpl. rewrite <- app_assoc. eauto.
Qed.

(** [SelectorBIC.select] is the search for the smallest BIC over
    [range(min_n_components, max_n_components)], started from
    [(None, inf)]; it prints one line per state count in verbose mode and
    leaves the instance as it was. *)
Lemma BIC_select_spec (s : ModelSelector obs) out :
  call (SelectorBIC_select lib) s out =
    (Ok (fst (search PyFloat.lt (None, PyFloat.inf)
                (map (BIC_candidate lib s)
                     (py_range (min_n_components s) (max_n_components s))))),
     s,
     out ++ flat_map (fun n => base_model_lines lib s n (X s) (lengths s))
              (py_range (min_n_components s) (max_n_components s))).
Proof.
  unfold call, SelectorBIC_select, bind, set_best_model, modify, gets. simpl.
  destruct (search_loop (fun n => try_pass (SelectorBIC_body lib n)) PyFloat.lt
              (BIC_candidate lib)
              (fun s n => base_model_lines lib s n (X s) (lengths s))
              (fun n f b Hb => BIC_body_spec n f b Hb)
              (py_range (min_n_components s) (max_n_components s))
              (mkFrame s out (Some (None, PyFloat.inf)) None) _ eq_refl)
    as [hm E].
  rewrite E. reflexivity.
Qed.

(** A comprehension whose element computation leaves the frame alone. *)
Lemma for_list_pure {A B} (body : A -> PyF B) (g : A -> result B)
    (f : Frame obs params) :
  (forall a, body a f = (g a, f)) ->
  forall l, for_list l body f = (rmap_list g l, f).
Proof.
  intros Hbody l. induction l as [|a l IH]; simpl; [reflexivity|].
  unfold bind at 1. rewrite Hbody.
  destruct (g a) as [b|e]; simpl; [|reflexivity].
  unfold bind at 1. rewrite IH.
  destruct (rmap_list g l); reflexivity.
Qed.

(** One iteration of the DIC loop is one step of the search. *)
Lemma DIC_body_spec n (f : Frame obs params) b :
  best_model f = Some b ->
  exists hm,
    try_pass (SelectorDIC_body lib n) f =
      (Ok tt,
       mkFrame (self f)
         (stdout f ++ base_model_lines lib (self f) n (X (self f)) (lengths (self f)))
         (Some (search_step PyFloat.gt b (DIC_candidate lib (self f) n)))
         (Some hm)).
Proof.
  intros Hb.
  unfold try_pass, try_except, SelectorDIC_body, bind at 1.
  rewrite base_model_spec.
  unfold DIC_candidate, DIC_score, corpus_scores.
  destruct (fit_candidate lib (self f) n _ _) as [m|e]; simpl.
  - unfold bind at 1, set_hmm_model at 1, modify at 1.
    unfold bind at 1, gets at 1. simpl.
    unfold bind at 1, read_local at 1, bind at 1, gets at 1, ret at 1. simpl.
    unfold bind at 1, call_score at 1, lift at 1.
    destruct (hmm_score lib m _ _) as [logL|e]; simpl; [|unfold ret; rewrite ?Hb; eauto].
    unfold bind at 1.
    erewrite for_list_pure; cycle 1.
    { intros w. unfold bind, gets, lift, read_local, call_score, ret. simpl.
      instantiate (1 := fun w => rbind (dict_get (hwords (self f)) w)
                                   (fun xl => hmm_score lib m (fst xl) (snd xl))).
      simpl. destruct (dict_get (hwords (self f)) w); reflexivity. }
    destruct (rmap_list _ _) as [scores|e]; simpl; [|unfold ret; rewrite ?Hb; eauto].
    unfold bind at 1, lift at 1.
    destruct (int_truediv 1 _) as [inv|e]; simpl; [|unfold ret; rewrite ?Hb; eauto].
    unfold bind, read_local, gets, ret, set_best_model, modify. simpl.
    rewrite Hb; simpl. unfold PyFloat.gt, PyFloat.lt.
    destruct (SFltb (snd b) _); simpl; unfold ret; eauto.
  - unfold bind, set_hmm_model, modify, read_local, gets, call_score, lift,
      raise, ret; simpl. rewrite Hb; eauto.
Qed.

(** [SelectorDIC.select] is the search for the largest DIC over
    [range(min_n_components, max_n_components)], started from
    [(None, -inf)]. *)
Lemma DIC_select_spec (s : ModelSelector obs) out :
  call (SelectorDIC_select lib) s out =
    (Ok (fst (search PyFloat.gt (None, PyFloat.neg_inf)
                (map (DIC_candidate lib s)
                     (py_range (min_n_components s) (max_n_components s))))),
     s,
     out ++ flat_map (fun n => base_model_lines lib s n (X s) (lengths s))
              (py_range (min_n_components s) (max_n_components s))).
Proof.
  unfold call, SelectorDIC_select, bind, set_best_model, modify, gets. simpl.
  destruct (search_loop (fun n => try_pass (SelectorDIC_body lib n)) PyFloat.gt
              (DIC_candidate lib)
              (fun s n => base_model_lines lib s n (X s) (lengths s))
              (fun n f b Hb => DIC_body_spec n f b Hb)
              (py_range (min_n_components s) (max_n_components s))
              (mkFrame s out (Some (None, PyFloat.neg_inf)) None) _ eq_refl)
    as [hm E].
  rewrite E. reflexivity.
Qed.

(** *** Cross-validation *)

(** Rebinding [X] and [lengths] is invisible to everything that reads
    only the other fields. *)
Lemma set_X_lengths_twice (xl xl' : Xlengths obs) s :
  set_X_lengths xl (set_X_lengths xl' s) = set_X_lengths xl s.
Proof. reflexivity. Qed.

Lemma set_X_lengths_same (s : ModelSelector obs) :
  set_X_lengths (X s, lengths s) s = s.
Proof. now destruct s. Qed.

Lemma CV_fold_candidate_rebound xl s n fold :
  CV_fold_candidate lib (set_X_lengths xl s) n fold = CV_fold_candidate lib s n fold.
Proof. reflexivity. Qed.

(** One fold: the instance is rebound to the training concatenation
    before anything can fail after it; the fold's outcome is the spec's
    fold candidate; at most one line is printed, for [n]. *)
Lemma CV_fold_spec n fold (f : Frame obs params) :
  exists r f',
    SelectorCV_fold lib n fold f = (r, f') /\
    best_model f' = best_model f /\
    match CV_fold_candidate lib (self f) n fold with
    | Ok (m, ll) => r = Ok ll /\ hmm_model f' = Some (Some m)
    | Raise _ => exists e, r = Raise e
    end /\
    match combine_sequences (fst fold) (sequences (self f)) with
    | Ok xl => self f' = set_X_lengths xl (self f)
    | Raise _ => f' = f
    end /\
    exists added,
      stdout f' = stdout f ++ added /\
      Forall (fun l => line_states l = n) added /\
      (verbose (self f) = true ->
       is_ok (combine_sequences (fst fold) (sequences (self f))) = true ->
       is_ok (combine_sequences (snd fold) (sequences (self f))) = true ->
       added <> []).
Proof.
  destruct fold as [i_train i_test].
  unfold SelectorCV_fold, CV_fold_candidate. simpl fst; simpl snd.
  unfold bind at 1, gets at 1. unfold bind at 1, lift at 1.
  destruct (combine_sequences i_train _) as [xl|e]; simpl.
  2:{ do 2 eexists. repeat split; eauto. exists []. rewrite app_nil_r.
      repeat split; auto. discriminate. }
  unfold bind at 1, set_self at 1, modify at 1.
  unfold bind at 1, gets at 1. simpl.
  unfold bind at 1, lift at 1.
  destruct (combine_sequences i_test _) as [test|e]; simpl.
  2:{ do 2 eexists. repeat split; eauto. exists []. rewrite app_nil_r.
      repeat split; auto. discriminate. }
  unfold bind at 1. rewrite base_model_spec. simpl.
  change (fit_candidate lib (set_X_lengths xl (self f)) n (fst xl) (snd xl))
    with (fit_candidate lib (self f) n (fst xl) (snd xl)).
  assert (Hlines : exists added,
    base_model_lines lib (set_X_lengths xl (self f)) n (fst xl) (snd xl) = added /\
    Forall (fun l => line_states l = n) added /\
    (verbose (self f) = true -> true = true -> true = true -> added <> [])).
  { unfold base_model_lines. simpl. eexists; split; [reflexivity|].
    destruct (verbose (self f)); split; auto; try discriminate.
    constructor; [|constructor]. now destruct (is_ok _). }
  destruct Hlines as (added & -> & Hall & Hne).
  destruct (fit_candidate lib (self f) n _ _) as [m|e]; simpl.
  - unfold bind, set_hmm_model, modify, read_local, gets, ret, call_score, lift.
    simpl. destruct (hmm_score lib m _ _) as [ll|e]; simpl;
      do 2 eexists; repeat split; eauto; exists added; simpl; auto.
  - unfold bind, set_hmm_model, modify, read_local, gets, ret, call_score, raise.
    simpl. do 2 eexists; repeat split; eauto; exists added; simpl; auto.
Qed.

Lemma CV_folds_eval_rebound xl s n folds last scores :
  CV_folds_eval lib (set_X_lengths xl s) n folds last scores =
  CV_folds_eval lib s n folds last scores.
Proof.
  revert last scores. induction folds as [|fold rest IH]; intros; simpl;
    [reflexivity|].
  rewrite CV_fold_candidate_rebound.
  destruct (CV_fold_candidate lib s n fold); simpl; auto.
Qed.

Lemma last_processed_fold_rebound xl s n folds :
  last_processed_fold lib (set_X_lengths xl s) n folds =
  last_processed_fold lib s n folds.
Proof.
  induction folds as [|fold rest IH]; simpl; [reflexivity|].
  rewrite CV_fold_candidate_rebound, IH. reflexivity.
Qed.

(** The loop over the folds. *)
Lemma CV_folds_spec n folds : forall scores last (f : Frame obs params),
  exists r f',
    SelectorCV_folds lib n folds scores f = (r, f') /\
    best_model f' = best_model f /\
    (folds = [] -> f' = f) /\
    match CV_folds_eval lib (self f) n folds last scores with
    | Ok (last', scores') =>
        r = Ok scores' /\ (folds <> [] -> hmm_model f' = Some last')
    | Raise _ => exists e, r = Raise e
    end /\
    (exists xl, self f' = set_X_lengths xl (self f)) /\
    (Forall (train_combines (self f)) folds -> folds <> [] ->
     exists fold xl,
       last_processed_fold lib (self f) n folds = Some fold /\
       combine_sequences (fst fold) (sequences (self f)) = Ok xl /\
       self f' = set_X_lengths xl (self f)) /\
    exists added,
      stdout f' = stdout f ++ added /\
      Forall (fun l => line_states l = n) added /\
      (verbose (self f) = true ->
       match folds with
       | fold :: _ =>
           is_ok (combine_sequences (fst fold) (sequences (self f))) = true ->
           is_ok (combine_sequences (snd fold) (sequences (self f))) = true ->
           added <> []
       | [] => True
       end).
Proof.
  induction folds as [|fold rest IH]; intros scores last f.
  - exists (Ok scores), f. simpl. repeat split; auto.
    + intros []; reflexivity.
    + exists (X (self f), lengths (self f)). now rewrite set_X_lengths_same.
    + intros _ []; reflexivity.
    + exists []. now rewrite app_nil_r.
  - destruct (CV_fold_spec n fold f)
      as (r1 & f1 & E1 & Hb1 & Hc1 & Hx1 & added1 & Ho1 & Hall1 & Hne1).
    simpl. unfold bind at 1. rewrite E1.
    destruct (CV_fold_candidate lib (self f) n fold) as [[m ll]|e] eqn:Ec.
    + destruct Hc1 as [-> Hh1].
      assert (exists xl, combine_sequences (fst fold) (sequences (self f)) = Ok xl)
        as [xl Exl].
      { unfold CV_fold_candidate in Ec.
        destruct (combine_sequences (fst fold) _); [eauto|discriminate]. }
      rewrite Exl in Hx1.
      destruct (IH (scores ++ [ll]) (Some m) f1)
        as (r & f' & E & Hb & Hnil & Hc & [xl' Hx] & Hlast & added & Ho & Hall & Hne).
      rewrite Hx1, ?CV_folds_eval_rebound in *.
      exists r, f'. simpl. repeat split.
      * exact E.
      * congruence.
      * discriminate.
      * destruct (CV_folds_eval lib (self f) n rest (Some m) (scores ++ [ll]))
          as [[last' scores']|e] eqn:Ee; [|exact Hc].
        destruct Hc as [-> Hh]. split; [reflexivity|]. intros _.
        destruct rest as [|fold' rest'].
        -- simpl in Ee. inversion Ee; subst. now rewrite (Hnil eq_refl).
        -- apply Hh. discriminate.
      * eexists. rewrite Hx. apply set_X_lengths_twice.
      * intros Hall' _. inversion Hall' as [|? ? Hfold Hrest]; subst.
        destruct rest as [|fold' rest'].
        -- exists fold, xl. rewrite (Hnil eq_refl). auto.
        -- destruct Hlast as (fold0 & xl0 & Hl0 & Hc0 & Hs0);
             [exact Hrest | discriminate |].
           rewrite last_processed_fold_rebound in Hl0.
           exists fold0, xl0. repeat split; auto.
      * exists (added1 ++ added). rewrite Ho, Ho1, app_assoc.
        repeat split; auto using Forall_app.
        -- apply Forall_app; auto.
        -- intros Hv H1 H2 Happ. apply app_eq_nil in Happ as [Happ _].
           exact (Hne1 Hv H1 H2 Happ).
    + destruct Hc1 as [e1 ->].
      exists (Raise e1), f1. simpl. repeat split; auto.
      * discriminate.
      * eauto.
      * destruct (combine_sequences (fst fold) _) as [xl|e0];
          [eauto | subst f1].
        exists (X (self f), lengths (self f)). now rewrite set_X_lengths_same.
      * intros Hall' _. inversion Hall' as [|? ? Hfold Hrest]; subst.
        unfold train_combines in Hfold.
        destruct (combine_sequences (fst fold) _) as [xl|e0] eqn:Exl;
          [|discriminate].
        exists fold, xl. auto.
      * exists added1. repeat split; auto.
Qed.

Lemma CV_folds_eval_last s n folds : forall last scores last' scores',
  CV_folds_eval lib s n folds last scores = Ok (last', scores') ->
  folds <> [] -> exists m, last' = Some m.
Proof.
  induction folds as [|fold rest IH]; intros last scores last' scores' E Hne;
    [contradiction|].
  simpl in E. destruct (CV_fold_candidate lib s n fold) as [c|e]; [|discriminate].
  simpl in E. destruct rest as [|fold' rest'].
  - simpl in E. inversion E. eauto.
  - eapply IH; [exact E | discriminate].
Qed.

(** One iteration of the cross-validation loop is one step of the
    search; the instance is at most rebound. *)
Lemma CV_body_spec n (f : Frame obs params) b :
  best_model f = Some b -> CV_inv lib f ->
  exists f',
    try_pass (SelectorCV_body lib n) f = (Ok tt, f') /\
    best_model f' = Some (search_step PyFloat.gt b (CV_candidate lib (self f) n)) /\
    CV_inv lib f' /\
    (exists xl, self f' = set_X_lengths xl (self f)) /\
    ((len (sequences (self f)) >? 2) = false ->
     self f' = self f /\
     stdout f' = stdout f ++
       base_model_lines lib (self f) n (X (self f)) (lengths (self f))) /\
    (exists added,
       stdout f' = stdout f ++ added /\
       Forall (fun l => line_states l = n) added /\
       (verbose (self f) = true -> CV_reaches_fit lib (self f) = true ->
        added <> [])) /\
    (forall folds,
       (len (sequences (self f)) >? 2) = true ->
       kf_split lib (sequences (self f)) = Ok folds -> folds <> [] ->
       Forall (train_combines (self f)) folds ->
       exists fold xl,
         last_processed_fold lib (self f) n folds = Some fold /\
         combine_sequences (fst fold) (sequences (self f)) = Ok xl /\
         self f' = set_X_lengths xl (self f)).
Proof.
  intros Hb Hinv.
  assert (Hsame : exists xl, self f = set_X_lengths xl (self f)).
  { exists (X (self f), lengths (self f)). now rewrite set_X_lengths_same. }
  unfold try_pass, try_except, SelectorCV_body, CV_candidate,
    full_data_candidate, CV_reaches_fit.
  unfold bind at 1, gets at 1. unfold bind at 1.
  destruct (len (sequences (self f)) >? 2) eqn:Hlen.
  - (* more than two sequences: the fold loop *)
    unfold bind at 1, lift at 1.
    destruct (kf_split lib (sequences (self f))) as [folds|e] eqn:Hsplit; simpl.
    2:{ exists f. unfold ret. repeat split; auto; try congruence.
        exists []. rewrite app_nil_r. repeat split; auto. congruence. }
    destruct (CV_folds_spec n folds [] None f)
      as (r & f1 & E & Hb1 & Hnil & Hc & [xl Hx] & Hlast & added & Ho & Hall & Hne).
    unfold bind at 1. rewrite E.
    assert (Hinv1 : CV_inv lib f1).
    { unfold CV_inv in *. rewrite Hx. simpl. intros H1 H2.
      rewrite Hsplit in H2. inversion H2; subst. rewrite (Hnil eq_refl). auto. }
    assert (Hadded : exists added0,
      stdout f1 = stdout f ++ added0 /\
      Forall (fun l => line_states l = n) added0 /\
      (verbose (self f) = true ->
       match folds with
       | [] => false
       | fold :: _ =>
           is_ok (combine_sequences (fst fold) (sequences (self f))) &&
           is_ok (combine_sequences (snd fold) (sequences (self f)))
       end = true -> added0 <> [])).
    { exists added. repeat split; auto. intros Hv Hr.
      destruct folds as [|fold rest]; [discriminate|].
      apply andb_prop in Hr as [H1 H2]. auto. }
    assert (Hlast' : forall folds0, true = true -> Ok folds = Ok folds0 ->
      folds0 <> [] -> Forall (train_combines (self f)) folds0 ->
      exists fold xl0,
        last_processed_fold lib (self f) n folds0 = Some fold /\
        combine_sequences (fst fold) (sequences (self f)) = Ok xl0 /\
        self f1 = set_X_lengths xl0 (self f)).
    { intros folds0 _ Heq Hne0 Hall0. inversion Heq; subst. auto. }
    assert (Hfalse : true = false ->
      self f1 = self f /\
      stdout f1 = stdout f ++
        base_model_lines lib (self f) n (X (self f)) (lengths (self f)))
      by discriminate.
    clear Hlast Hne Ho Hall.
    destruct (CV_folds_eval lib (self f) n folds None []) as [[last' scores']|e]
      eqn:Ee; simpl.
    + destruct Hc as [-> Hh].
      destruct folds as [|fold rest].
      * (* no fold at all: [hmm_model] is unbound *)
        simpl in Ee. inversion Ee; subst. rewrite (Hnil eq_refl) in *.
        run_py. rewrite (Hinv Hlen Hsplit). simpl. exists f. eauto 10.
      * destruct (CV_folds_eval_last _ _ _ _ _ _ _ Ee) as [m ->]; [discriminate|].
        run_py. rewrite Hh by discriminate. simpl. rewrite Hb1, Hb. simpl.
        eexists. split; [reflexivity|]. simpl.
        split; [|split; [|eauto 10]].
        -- unfold py_max2, PyFloat.gt. simpl. now destruct (SFltb _ _).
        -- unfold CV_inv. simpl. rewrite Hx. simpl. rewrite Hsplit. discriminate.
    + destruct Hc as [e' ->]. unfold ret. exists f1. rewrite Hb1. eauto 10.
  - (* at most two sequences: fit and score on the full data *)
    unfold bind at 1. rewrite base_model_spec.
    assert (Hlines : exists added0,
      stdout f ++ base_model_lines lib (self f) n (X (self f)) (lengths (self f)) =
      stdout f ++ added0 /\
      Forall (fun l => line_states l = n) added0 /\
      (verbose (self f) = true -> true = true -> added0 <> [])).
    { eexists. split; [reflexivity|]. unfold base_model_lines.
      destruct (verbose (self f)); split; auto; try discriminate.
      constructor; [|constructor]. now destruct (is_ok _). }
    assert (Hnofold : forall folds, false = true ->
      kf_split lib (sequences (self f)) = Ok folds -> folds <> [] ->
      Forall (train_combines (self f)) folds ->
      exists fold xl,
        last_processed_fold lib (self f) n folds = Some fold /\
        combine_sequences (fst fold) (sequences (self f)) = Ok xl /\
        self f = set_X_lengths xl (self f)) by discriminate.
    assert (Hinv' : forall out bm hm,
      CV_inv lib (@mkFrame obs params (self f) out bm hm)).
    { intros out bm hm. unfold CV_inv. simpl. rewrite Hlen. discriminate. }
    destruct (fit_candidate lib (self f) n _ _) as [m|e]; simpl.
    + run_py. simpl. destruct (hmm_score lib m _ _) as [score|e]; simpl.
      * rewrite Hb. simpl.
        eexists. split; [reflexivity|]. simpl.
        split; [|eauto 10].
        unfold py_max2, PyFloat.gt. simpl. now destruct (SFltb _ _).
      * eexists. split; [reflexivity|]. simpl. eauto 10.
    + run_py. simpl. eexists. split; [reflexivity|]. simpl. eauto 10.
Qed.

Lemma CV_candidate_rebound xl (s : ModelSelector obs) n :
  (len (sequences s) >? 2) = true ->
  CV_candidate lib (set_X_lengths xl s) n = CV_candidate lib s n.
Proof.
  intros Hlen. unfold CV_candidate. simpl. rewrite Hlen.
  destruct (kf_split lib (sequences s)); simpl; [|reflexivity].
  now rewrite CV_folds_eval_rebound.
Qed.

(** The cross-validation loop, relative to the instance [s0] that
    [select] was called on. *)
Lemma CV_loop_spec (s0 : ModelSelector obs) l : forall (f : Frame obs params) b,
  best_model f = Some b -> CV_inv lib f ->
  (exists xl, self f = set_X_lengths xl s0) ->
  ((len (sequences s0) >? 2) = false -> self f = s0) ->
  exists f',
    for_each l (fun n => try_pass (SelectorCV_body lib n)) f = (Ok tt, f') /\
    best_model f' = Some (search PyFloat.gt b (map (CV_candidate lib s0) l)) /\
    (exists xl, self f' = set_X_lengths xl s0) /\
    ((len (sequences s0) >? 2) = false ->
     self f' = s0 /\
     stdout f' = stdout f ++
       flat_map (fun n => base_model_lines lib s0 n (X s0) (lengths s0)) l) /\
    (exists added,
       stdout f' = stdout f ++ added /\
       (forall k, In k (map line_states added) -> In k l) /\
       (verbose s0 = true -> CV_reaches_fit lib s0 = true ->
        forall k, In k l -> In k (map line_states added))) /\
    (forall folds,
       (len (sequences s0) >? 2) = true ->
       kf_split lib (sequences s0) = Ok folds -> folds <> [] ->
       Forall (train_combines s0) folds -> l <> [] ->
       exists fold xl,
         last_processed_fold lib s0 (last l 0) folds = Some fold /\
         combine_sequences (fst fold) (sequences s0) = Ok xl /\
         self f' = set_X_lengths xl s0).
Proof.
  induction l as [|n l IH]; intros f b Hb Hinv [xl0 Hself] Hsmall.
  - exists f. simpl. unfold ret.
    repeat split; eauto; try (now rewrite app_nil_r); try congruence.
    exists []. rewrite app_nil_r. simpl. auto.
  - destruct (CV_body_spec n f b Hb Hinv)
      as (f1 & E1 & Hb1 & Hinv1 & [xl1 Hx1] & Hsmall1 &
          (added1 & Ho1 & Hall1 & Hne1) & Hlast1).
    assert (Hcand : CV_candidate lib (self f) n = CV_candidate lib s0 n).
    { destruct (len (sequences s0) >? 2) eqn:Hlen.
      - rewrite Hself. now apply CV_candidate_rebound.
      - now rewrite Hsmall. }
    rewrite Hcand in Hb1.
    assert (Hself1 : self f1 = set_X_lengths xl1 s0).
    { rewrite Hx1, Hself. reflexivity. }
    assert (Hsmall1' : (len (sequences s0) >? 2) = false -> self f1 = s0).
    { intros Hlen. rewrite <- (Hsmall Hlen). apply Hsmall1.
      rewrite (Hsmall Hlen). exact Hlen. }
    destruct (IH f1 _ Hb1 Hinv1 (ex_intro _ xl1 Hself1) Hsmall1')
      as (f' & E & Hb' & Hx' & Hsm' & (added & Ho & Hsub & Hsup) & Hlast).
    exists f'. simpl. unfold bind at 1. rewrite E1.
    split; [exact E|]. split; [exact Hb'|]. split; [exact Hx'|].
    split; [|split].
    + intros Hlen. destruct (Hsm' Hlen) as [Hs' Ho'].
      split; [exact Hs'|]. rewrite Ho'.
      destruct Hsmall1 as [_ Ho1']; [now rewrite (Hsmall Hlen)|].
      rewrite Ho1', (Hsmall Hlen), <- app_assoc. reflexivity.
    + exists (added1 ++ added). rewrite Ho, Ho1, <- app_assoc.
      split; [reflexivity|]. split.
      * intros k Hk. rewrite map_app in Hk. apply in_app_or in Hk as [Hk|Hk].
        -- left. apply in_map_iff in Hk as (ln & <- & Hin).
           rewrite Forall_forall in Hall1. symmetry. now apply Hall1.
        -- right. now apply Hsub.
      * intros Hv Hr k [<-|Hk]; rewrite map_app; apply in_or_app.
        -- left. rewrite Hself in Hne1.
           specialize (Hne1 Hv Hr).
           destruct added1 as [|ln added1]; [contradiction|].
           inversion Hall1; subst. now left.
        -- right. now apply Hsup.
    + intros folds Hlen Hsplit Hne Hall _.
      destruct l as [|n' l'].
      * simpl in E. unfold ret in E. inversion E; subst f'.
        rewrite Hself in Hlast1.
        destruct (Hlast1 folds Hlen Hsplit Hne Hall) as (fold & xl & Hl & Hc & Hs).
        rewrite last_processed_fold_rebound in Hl.
        exists fold, xl. repeat split; auto.
      * apply (Hlast folds Hlen Hsplit Hne Hall). discriminate.
Qed.

(** [SelectorCV.select] is the search for the largest cross-validated
    score over [range(min_n_components, max_n_components + 1)], started
    from [(None, -inf)]; it never raises. *)
Lemma CV_select_spec (s : ModelSelector obs) out :
  exists s' out',
    call (SelectorCV_select lib) s out =
      (Ok (fst (search PyFloat.gt (None, PyFloat.neg_inf)
                  (map (CV_candidate lib s)
                       (py_range (min_n_components s) (max_n_components s + 1))))),
       s', out') /\
    (exists xl, s' = set_X_lengths xl s) /\
    ((len (sequences s) >? 2) = false ->
     s' = s /\
     out' = out ++
       flat_map (fun n => base_model_lines lib s n (X s) (lengths s))
                (py_range (min_n_components s) (max_n_components s + 1))) /\
    (exists added,
       out' = out ++ added /\
       (forall k, In k (map line_states added) ->
                  In k (py_range (min_n_components s) (max_n_components s + 1))) /\
       (verbose s = true -> CV_reaches_fit lib s = true ->
        forall k, In k (py_range (min_n_components s) (max_n_components s + 1)) ->
                  In k (map line_states added))) /\
    (forall folds,
       (len (sequences s) >? 2) = true ->
       kf_split lib (sequences s) = Ok folds -> folds <> [] ->
       Forall (train_combines s) folds ->
       py_range (min_n_components s) (max_n_components s + 1) <> [] ->
       exists fold xl,
         last_processed_fold lib s
           (last (py_range (min_n_components s) (max_n_components s + 1)) 0)
           folds = Some fold /\
         combine_sequences (fst fold) (sequences s) = Ok xl /\
         s' = set_X_lengths xl s).
Proof.
  destruct (CV_loop_spec s (py_range (min_n_components s) (max_n_components s + 1))
              (mkFrame s out (Some (None, PyFloat.neg_inf)) None) _ eq_refl)
    as (f' & E & Hb & Hx & Hsm & Hout & Hlast).
  - unfold CV_inv. reflexivity.
  - exists (X s, lengths s). simpl. now rewrite set_X_lengths_same.
  - reflexivity.
  - exists (self f'), (stdout f').
    split; [|repeat split; auto].
    + unfold call, SelectorCV_select, bind, set_best_model, modify, gets.
      simpl in *. rewrite E. unfold read_local, bind, gets, ret. rewrite Hb.
      reflexivity.
    + now apply Hsm.
    + now apply Hsm.
Qed.

End Refinement.


(** ** Ranges and candidate lists *)

Lemma In_py_range lo hi n : In n (py_range lo hi) <-> lo <= n < hi.
Proof.
  unfold py_range. rewrite in_map_iff. split.
  - intros (k & <- & Hk). apply in_seq in Hk. lia.
  - intros H. exists (Z.to_nat (n - lo)). split; [lia|]. apply in_seq. lia.
Qed.

Lemma py_range_nil lo hi : py_range lo hi = [] <-> hi <= lo.
Proof.
  unfold py_range. split.
  - intros H. apply map_eq_nil in H.
    destruct (Z.to_nat (hi - lo)) eqn:E; [lia | discriminate].
  - intros H. replace (Z.to_nat (hi - lo)) with 0%nat by lia. reflexivity.
Qed.

Lemma py_range_snoc lo hi : lo <= hi -> py_range lo (hi + 1) = py_range lo hi ++ [hi].
Proof.
  intros H. unfold py_range.
  replace (Z.to_nat (hi + 1 - lo)) with (Z.to_nat (hi - lo) + 1)%nat by lia.
  rewrite seq_app, map_app. simpl. f_equal. f_equal. lia.
Qed.

Lemma py_range_last lo hi d : lo <= hi -> last (py_range lo (hi + 1)) d = hi.
Proof. intros H. rewrite py_range_snoc by assumption. apply last_last. Qed.

Lemma seq_before l1 : forall a N j l2,
  seq a N = l1 ++ j :: l2 -> forall k, (a <= k < j)%nat -> In k l1.
Proof.
  induction l1 as [|x l1 IH]; intros a N j l2 E k Hk.
  - destruct N; simpl in E; [discriminate|]. inversion E. lia.
  - destruct N; simpl in E; [discriminate|]. inversion E; subst x.
    destruct (Nat.eq_dec k a) as [->|Hne]; [now left|].
    right. eapply IH; [eassumption|]. lia.
Qed.

(** Whatever precedes [n] in a range is below [n]. *)
Lemma py_range_before lo hi r1 n r2 :
  py_range lo hi = r1 ++ n :: r2 -> forall k, lo <= k < n -> In k r1.
Proof.
  unfold py_range. intros E k Hk.
  apply map_eq_app in E as (l1 & l2 & Eseq & <- & E2).
  apply map_eq_cons in E2 as (j & l2' & -> & <- & _).
  apply in_map_iff. exists (Z.to_nat (k - lo)). split; [lia|].
  eapply seq_before; [eassumption|]. lia.
Qed.

Section Outcome.

Context {params : Type}.
Variable better : float -> float -> bool.
Hypothesis better_irrefl : forall a, better a a = false.
Hypothesis better_trans : forall a b c,
  better a b = true -> better b c = true -> better a c = true.
Hypothesis better_tie : forall a b c,
  PyFloat.eqb a b = true -> better b c = true -> better a c = true.

(** The outcome of a search over the candidates of a range of state
    counts. *)
Lemma search_range (cand : Z -> result (GaussianHMM params * float)) s0 lo hi :
  match fst (search better (None, s0) (map cand (py_range lo hi))) with
  | None =>
      forall n m sc, lo <= n < hi -> cand n = Ok (m, sc) -> better sc s0 = false
  | Some m =>
      exists n sc,
        lo <= n < hi /\ cand n = Ok (m, sc) /\ better sc s0 = true /\
        (forall n' m' sc', lo <= n' < hi -> cand n' = Ok (m', sc') ->
                           better sc' sc = false) /\
        (forall n' m' sc', lo <= n' < n -> cand n' = Ok (m', sc') ->
                           PyFloat.eqb sc' sc = false)
  end.
Proof.
  pose proof (search_spec better better_irrefl better_trans better_tie s0
                (map cand (py_range lo hi))) as H.
  destruct (search better (None, s0) (map cand (py_range lo hi))) as [[m|] sc];
    simpl.
  - destruct H as (pre & post & E & Hs0 & Hbest & Htie).
    pose proof E as E'.
    apply map_eq_app in E' as (r1 & r2 & Er & <- & E2).
    apply map_eq_cons in E2 as (n & r2' & -> & Hn & _).
    assert (Hr : lo <= n < hi).
    { apply In_py_range. rewrite Er. apply in_or_app. right. now left. }
    exists n, sc. split; [exact Hr|]. split; [exact Hn|].
    split; [exact Hs0|]. split.
    + intros n' m' sc' Hr' Hc. apply (Hbest m'). rewrite <- Hc.
      apply in_map, In_py_range, Hr'.
    + intros n' m' sc' Hr' Hc. apply (Htie m'). rewrite <- Hc.
      apply in_map. eapply py_range_before; eauto.
  - destruct H as [_ H]. intros n m sc' Hr Hc. apply (H m). rewrite <- Hc.
    apply in_map, In_py_range, Hr.
Qed.

(** A search over candidates that all fail returns the sentinel. *)
Lemma search_all_fail (cand : Z -> result (GaussianHMM params * float)) init l :
  (forall n, In n l -> is_ok (cand n) = false) ->
  search better init (map cand l) = init.
Proof.
  revert init. induction l as [|n l IH]; intros init H; [reflexivity|].
  simpl. unfold search in IH. rewrite <- (IH init) at 2 by (intros; apply H; now right).
  f_equal. specialize (H n (or_introl eq_refl)).
  now destruct (cand n).
Qed.

End Outcome.

(** ** Facts about candidates *)

Lemma gt_irrefl (a : float) : PyFloat.gt a a = false.
Proof. apply lt_irrefl. Qed.

Lemma gt_trans (a b c : float) :
  PyFloat.gt a b = true -> PyFloat.gt b c = true -> PyFloat.gt a c = true.
Proof. unfold PyFloat.gt. intros H1 H2. exact (lt_trans c b a H2 H1). Qed.

Lemma gt_tie (a b c : float) :
  PyFloat.eqb a b = true -> PyFloat.gt b c = true -> PyFloat.gt a c = true.
Proof. unfold PyFloat.gt. apply lt_eqb_r. Qed.

Lemma rmap_list_In {A B} (g : A -> result B) l : forall ys a y,
  rmap_list g l = Ok ys -> In a l -> g a = Ok y -> In y ys.
Proof.
  induction l as [|x l IH]; intros ys a y E Hin Ha; [contradiction|].
  simpl in E. destruct (g x) as [b|e] eqn:Ex; [|discriminate]. simpl in E.
  destruct (rmap_list g l) as [bs|e]; [|discriminate]. simpl in E.
  inversion E; subst ys. destruct Hin as [->|Hin].
  - left. congruence.
  - right. eapply IH; eauto.
Qed.

Lemma rmap_list_length {A B} (g : A -> result B) l : forall ys,
  rmap_list g l = Ok ys -> length ys = length l.
Proof.
  induction l as [|x l IH]; intros ys E; simpl in E.
  - now inversion E.
  - destruct (g x); [|discriminate]. simpl in E.
    destruct (rmap_list g l); [|discriminate]. simpl in E.
    inversion E. simpl. f_equal. now apply IH.
Qed.

Lemma dict_get_In {V} (d : dict V) k v : dict_get d k = Ok v -> In k (keys d).
Proof.
  induction d as [|[k' v'] d IH]; simpl; [discriminate|].
  destruct (String.eqb_spec k' k); [now left | right; auto].
Qed.

Section Candidates.

Context {obs params : Type} (lib : Library obs params).

Lemma fit_candidate_n_components (s : ModelSelector obs) n X0 L0 m :
  fit_candidate lib s n X0 L0 = Ok m -> n_components m = n.
Proof.
  unfold fit_candidate. destruct (hmm_fit lib _ _ _ _ _ _); simpl; [|discriminate].
  now inversion 1.
Qed.

(** A successful BIC candidate, taken apart. *)
Lemma BIC_candidate_inv (s : ModelSelector obs) n m bic :
  BIC_candidate lib s n = Ok (m, bic) ->
  fit_candidate lib s n (X s) (lengths s) = Ok m /\
  exists logL p,
    hmm_score lib m (X s) (lengths s) = Ok logL /\
    float_of_int (n ^ 2 + 2 * n * hmm_n_features lib (fitted m) - 1) = Ok p /\
    bic = PyFloat.add (PyFloat.mul (PyFloat.of_Z (-2)) logL)
                      (PyFloat.mul p (np_log lib (len (lengths s)))).
Proof.
  unfold BIC_candidate, BIC_score, BIC_free_parameters.
  destruct (fit_candidate lib s n _ _) as [m0|e]; simpl; [|discriminate].
  destruct (hmm_score lib m0 _ _) as [logL|e] eqn:Es; simpl; [|discriminate].
  destruct (float_of_int _) as [p|e] eqn:Ep; simpl; [|discriminate].
  inversion 1; subst. eauto 10.
Qed.

(** A successful DIC candidate, taken apart. *)
Lemma DIC_candidate_inv (s : ModelSelector obs) n m dic :
  DIC_candidate lib s n = Ok (m, dic) ->
  fit_candidate lib s n (X s) (lengths s) = Ok m /\
  exists logL scores inv,
    hmm_score lib m (X s) (lengths s) = Ok logL /\
    corpus_scores lib s m = Ok scores /\
    int_truediv 1 (len (keys (words s)) - 1) = Ok inv /\
    dic = PyFloat.sub logL (PyFloat.mul inv (PyFloat.sub (py_sum scores) logL)).
Proof.
  unfold DIC_candidate, DIC_score.
  destruct (fit_candidate lib s n _ _) as [m0|e]; simpl; [|discriminate].
  destruct (hmm_score lib m0 _ _) as [logL|e] eqn:Es; simpl; [|discriminate].
  destruct (corpus_scores lib s m0) as [scores|e] eqn:Ec; simpl; [|discriminate].
  destruct (int_truediv 1 _) as [inv|e] eqn:Ei; simpl; [|discriminate].
  inversion 1; subst. eauto 10.
Qed.



Lemma last_processed_fold_In (s : ModelSelector obs) n folds fold :
  last_processed_fold lib s n folds = Some fold -> In fold folds.
Proof.
  induction folds as [|f0 rest IH]; simpl; [discriminate|].
  destruct (is_ok _).
  - destruct rest as [|f1 rest'].
    + inversion 1. now left.
    + intros H. right. now apply IH.
  - inversion 1. now left.
Qed.

(** In verbose mode one line is printed per fit, carrying its state
    count. *)
Lemma base_model_lines_states (s : ModelSelector obs) X0 L0 l :
  verbose s = true ->
  map line_states (flat_map (fun n => base_model_lines lib s n X0 L0) l) = l.
Proof.
  intros Hv. induction l as [|n l IH]; [reflexivity|].
  simpl. rewrite map_app, IH. unfold base_model_lines. rewrite Hv. simpl.
  now destruct (is_ok _).
Qed.

End Candidates.

(** ** What each search returns *)

Section Outcomes.

Context {obs params : Type} (lib : Library obs params).

Lemma search_outcome better
    (Hirr : forall a, better a a = false)
    (Htrans : forall a b c, better a b = true -> better b c = true ->
                            better a c = true)
    (Htie : forall a b c, PyFloat.eqb a b = true -> better b c = true ->
                          better a c = true)
    sentinel (cand : Z -> result (GaussianHMM params * float)) lo hi :
  outcome better sentinel cand lo hi
    (fst (search better (None, sentinel) (map cand (py_range lo (hi + 1))))).
Proof.
  pose proof (search_range better Hirr Htrans Htie cand sentinel lo (hi + 1)) as H.
  unfold outcome.
  destruct (fst (search better _ _)) as [m|].
  - destruct H as (n & sc & Hn & Hc & Hs & Hbest & Hfirst).
    exists n, sc. split; [lia|]. split; [exact Hc|]. split; [exact Hs|]. split.
    + intros n' m' sc' Hn'. apply Hbest. lia.
    + exact Hfirst.
  - intros n m sc Hn. apply H. lia.
Qed.

(** [SelectorBIC.select]: never raises, leaves the instance alone, and
    returns the first smallest BIC of
    [range(min_n_components, max_n_components)]. *)
Lemma BIC_select_outcome (s : ModelSelector obs) out :
  exists r out',
    call (SelectorBIC_select lib) s out = (Ok r, s, out') /\
    outcome PyFloat.lt PyFloat.inf (BIC_candidate lib s)
      (min_n_components s) (max_n_components s - 1) r.
Proof.
  rewrite BIC_select_spec. do 2 eexists. split; [reflexivity|].
  pose proof (search_outcome PyFloat.lt lt_irrefl lt_trans lt_eqb_l PyFloat.inf
                (BIC_candidate lib s) (min_n_components s)
                (max_n_components s - 1)) as H.
  now replace (max_n_components s - 1 + 1) with (max_n_components s) in H by lia.
Qed.

(** [SelectorDIC.select]: likewise, for the first largest DIC. *)
Lemma DIC_select_outcome (s : ModelSelector obs) out :
  exists r out',
    call (SelectorDIC_select lib) s out = (Ok r, s, out') /\
    outcome PyFloat.gt PyFloat.neg_inf (DIC_candidate lib s)
      (min_n_components s) (max_n_components s - 1) r.
Proof.
  rewrite DIC_select_spec. do 2 eexists. split; [reflexivity|].
  pose proof (search_outcome PyFloat.gt gt_irrefl gt_trans gt_tie PyFloat.neg_inf
                (DIC_candidate lib s) (min_n_components s)
                (max_n_components s - 1)) as H.
  now replace (max_n_components s - 1 + 1) with (max_n_components s) in H by lia.
Qed.

(** [SelectorCV.select]: never raises and returns the first largest
    cross-validated score of
    [range(min_n_components, max_n_components + 1)]. *)
Lemma CV_select_outcome (s : ModelSelector obs) out :
  exists r s' out',
    call (SelectorCV_select lib) s out = (Ok r, s', out') /\
    outcome PyFloat.gt PyFloat.neg_inf (CV_candidate lib s)
      (min_n_components s) (max_n_components s) r.
Proof.
  destruct (CV_select_spec lib s out) as (s' & out' & E & _).
  do 3 eexists. split; [exact E|].
  apply (search_outcome PyFloat.gt gt_irrefl gt_trans gt_tie).
Qed.

(** [SelectorConstant.select]: never raises and returns what the fit with
    [n_constant] states gives. *)
Lemma Constant_select_spec (s : ModelSelector obs) out :
  call (SelectorConstant_select lib) s out =
    (Ok (to_option (fit_candidate lib s (n_constant s) (X s) (lengths s))),
     s, out ++ base_model_lines lib s (n_constant s) (X s) (lengths s)).
Proof.
  unfold call, SelectorConstant_select, bind, gets.
  now rewrite base_model_spec.
Qed.

End Outcomes.

(** * The claims *)

(** C1 (as the code has it).  [SelectorCV.select] replaces the running
    best through [max(best_model, curr, key=...)], which returns its first
    maximal argument: the model returned, evaluated at state count [n], is
    not beaten by any candidate of
    [range(min_n_components, max_n_components + 1)], and no candidate
    evaluated before it (at a lower state count) has a score equal to its
    own.  On a tie the earlier-evaluated, lower-[n] candidate is kept. *)
Theorem SelectorCV_ties_keep_first {obs params} (lib : Library obs params)
    (s : ModelSelector obs) (out : list line) m s' out' :
  call (SelectorCV_select lib) s out = (Ok (Some m), s', out') ->
  exists n sc,
    min_n_components s <= n <= max_n_components s /\
    CV_candidate lib s n = Ok (m, sc) /\
    forall n' m' sc',
      min_n_components s <= n' <= max_n_components s ->
      CV_candidate lib s n' = Ok (m', sc') ->
      PyFloat.gt sc' sc = false /\
      (n' < n -> PyFloat.eqb sc' sc = false).
Proof.
  intros E.
  destruct (CV_select_outcome lib s out) as (r & s1 & out1 & E1 & H).
  rewrite E1 in E. injection E as -> _ _.
  destruct H as (n & sc & Hn & Hc & _ & Hbest & Hfirst).
  exists n, sc. split; [exact Hn|]. split; [exact Hc|].
  intros n' m' sc' Hn' Hc'. split; [eauto|].
  intros Hlt. eapply Hfirst; [|exact Hc']. lia.
Qed.

(** C2 (as the code has it).  With a single word in the corpus
    ([M = 1]) [SelectorDIC.select] signals nothing: the
    [ZeroDivisionError] raised by [1 / (M - 1)] is caught by the bare
    [except] around each candidate, every candidate is skipped, and
    [select] returns [None] with the instance unchanged. *)
Theorem SelectorDIC_single_word_returns_None {obs params}
    (lib : Library obs params) (s : ModelSelector obs) (out : list line) :
  len (keys (words s)) = 1 ->
  (exists out', call (SelectorDIC_select lib) s out = (Ok None, s, out')) /\
  forall n m logL scores,
    fit_candidate lib s n (X s) (lengths s) = Ok m ->
    hmm_score lib m (X s) (lengths s) = Ok logL ->
    corpus_scores lib s m = Ok scores ->
    DIC_candidate lib s n = Raise ZeroDivisionError.
Proof.
  intros HM. split.
  - rewrite DIC_select_spec. eexists. f_equal. f_equal.
    rewrite search_all_fail; [reflexivity|].
    intros n _. unfold DIC_candidate, DIC_score. rewrite HM.
    destruct (fit_candidate lib s n _ _) as [m|e]; simpl; [|reflexivity].
    destruct (hmm_score lib m _ _); simpl; [|reflexivity].
    destruct (corpus_scores lib s m); reflexivity.
  - intros n m logL scores Hf Hs Hc. unfold DIC_candidate, DIC_score.
    rewrite Hf. simpl. rewrite Hs. simpl. rewrite Hc. simpl. rewrite HM.
    reflexivity.
Qed.


(** C4.  Whatever the setting of [verbose], [SelectorBIC.select] and
    [SelectorDIC.select] search exactly
    [range(min_n_components, max_n_components)], the state counts [k] with
    [min_n_components <= k < max_n_components]: their result is the search
    over the candidates of that range.  [SelectorCV.select] searches
    exactly [range(min_n_components, max_n_components + 1)], the state
    counts with [min_n_components <= k <= max_n_components]: its result is
    the search over the candidates of that range.  The printed trace shows
    the same: every line printed carries a state count of the selector's
    range; in verbose mode BIC and DIC print exactly one line for each
    state count of their range, in order, and cross-validation prints
    every state count of its range whenever an iteration gets as far as
    fitting.  For [min_n_components = 2] and [max_n_components = 4] the
    ranges are [2, 3] and [2, 3, 4]. *)
Theorem search_ranges {obs params} (lib : Library obs params)
    (s : ModelSelector obs) (out : list line) :
  (exists added,
     call (SelectorBIC_select lib) s out =
       (Ok (fst (search PyFloat.lt (None, PyFloat.inf)
                   (map (BIC_candidate lib s)
                      (py_range (min_n_components s) (max_n_components s))))),
        s, out ++ added) /\
     (forall k, In k (map line_states added) ->
                min_n_components s <= k < max_n_components s) /\
     (verbose s = true ->
      map line_states added =
        py_range (min_n_components s) (max_n_components s))) /\
  (exists added,
     call (SelectorDIC_select lib) s out =
       (Ok (fst (search PyFloat.gt (None, PyFloat.neg_inf)
                   (map (DIC_candidate lib s)
                      (py_range (min_n_components s) (max_n_components s))))),
        s, out ++ added) /\
     (forall k, In k (map line_states added) ->
                min_n_components s <= k < max_n_components s) /\
     (verbose s = true ->
      map line_states added =
        py_range (min_n_components s) (max_n_components s))) /\
  (exists s' added,
     call (SelectorCV_select lib) s out =
       (Ok (fst (search PyFloat.gt (None, PyFloat.neg_inf)
                   (map (CV_candidate lib s)
                      (py_range (min_n_components s) (max_n_components s + 1))))),
        s', out ++ added) /\
     (forall k, In k (map line_states added) ->
                min_n_components s <= k <= max_n_components s) /\
     (verbose s = true -> CV_reaches_fit lib s = true ->
      forall k, min_n_components s <= k <= max_n_components s ->
                In k (map line_states added))) /\
  (forall k, In k (py_range (min_n_components s) (max_n_components s)) <->
             min_n_components s <= k < max_n_components s) /\
  (forall k, In k (py_range (min_n_components s) (max_n_components s + 1)) <->
             min_n_components s <= k <= max_n_components s) /\
  py_range 2 4 = [2; 3] /\ py_range 2 (4 + 1) = [2; 3; 4].
Proof.
  assert (Hlines : forall X0 L0 l k,
    In k (map line_states
            (flat_map (fun n => base_model_lines lib s n X0 L0) l)) -> In k l).
  { intros X0 L0 l k. induction l as [|n l IH]; simpl; [auto|].
    rewrite map_app, in_app_iff. intros [Hk|Hk]; [left | right; auto].
    unfold base_model_lines in Hk. destruct (verbose s); [|contradiction].
    destruct Hk as [Hk|[]]. now destruct (is_ok _). }
  split; [|split; [|split; [|split; [|split; [|split; reflexivity]]]]].
  - eexists. rewrite BIC_select_spec. split; [reflexivity|]. split.
    + intros k Hk. now apply Hlines, In_py_range in Hk.
    + intros Hv. now apply base_model_lines_states.
  - eexists. rewrite DIC_select_spec. split; [reflexivity|]. split.
    + intros k Hk. now apply Hlines, In_py_range in Hk.
    + intros Hv. now apply base_model_lines_states.
  - destruct (CV_select_spec lib s out)
      as (s' & out' & E & _ & _ & (added & -> & Hsub & Hsup) & _).
    exists s', added. split; [exact E|]. split.
    + intros k Hk. apply Hsub, In_py_range in Hk. lia.
    + intros Hv Hr k Hk. apply (Hsup Hv Hr), In_py_range. lia.
  - intros k. apply In_py_range.
  - intros k. rewrite In_py_range. lia.
Qed.

(** C5. [SelectorBIC.select] never raises and leaves the instance as it
    was.  When it returns a model [m], [m] is the candidate fitted with
    some [n] of [range(min_n_components, max_n_components)] on the item's
    own full data, its score is
    [BIC = -2 * logL + p * log(len(lengths))] with
    [p = n^2 + 2 * n * n_features - 1] and [logL] the model's score on that
    same data, and no successfully evaluated candidate of the range has a
    smaller BIC.  When it returns [None], no successfully evaluated
    candidate has a BIC below [inf]. *)
Theorem SelectorBIC_select_minimum {obs params} (lib : Library obs params)
    (s : ModelSelector obs) (out : list line) :
  exists r out',
    call (SelectorBIC_select lib) s out = (Ok r, s, out') /\
    match r with
    | Some m =>
        exists n logL p bic,
          min_n_components s <= n < max_n_components s /\
          n_components m = n /\
          fit_candidate lib s n (X s) (lengths s) = Ok m /\
          hmm_score lib m (X s) (lengths s) = Ok logL /\
          float_of_int (n ^ 2 + 2 * n * hmm_n_features lib (fitted m) - 1) = Ok p /\
          bic = PyFloat.add (PyFloat.mul (PyFloat.of_Z (-2)) logL)
                            (PyFloat.mul p (np_log lib (len (lengths s)))) /\
          BIC_candidate lib s n = Ok (m, bic) /\
          forall n' m' bic',
            min_n_components s <= n' < max_n_components s ->
            BIC_candidate lib s n' = Ok (m', bic') ->
            PyFloat.lt bic' bic = false
    | None =>
        forall n m bic,
          min_n_components s <= n < max_n_components s ->
          BIC_candidate lib s n = Ok (m, bic) ->
          PyFloat.lt bic PyFloat.inf = false
    end.
Proof.
  destruct (BIC_select_outcome lib s out) as (r & out' & E & H).
  exists r, out'. split; [exact E|].
  destruct r as [m|].
  - destruct H as (n & bic & Hr & Hc & _ & Hmin & _).
    destruct (BIC_candidate_inv lib s n m bic Hc) as (Hfit & logL & p & Hs & Hp & Hb).
    exists n, logL, p, bic.
    pose proof (fit_candidate_n_components lib s n _ _ m Hfit).
    split; [lia|]. repeat (split; [assumption|]).
    intros n' m' bic' Hn'. apply Hmin. lia.
  - intros n m bic Hn. apply H. lia.
Qed.

(** C6. On an instance built by [__init__], [SelectorDIC.select] never
    raises and leaves the instance as it was.  When it returns a model
    [m], [m] is the candidate fitted with some [n] of
    [range(min_n_components, max_n_components)] on the item's own data; its
    score is [DIC = logL - (1/(M-1)) * (sumOverAll - logL)], where [logL]
    is the model's score on the item's own flattened data, [sumOverAll]
    sums the model's score on every word of the corpus (one term per word,
    the target word's [logL] among them) and [M] is the number of words;
    no successfully evaluated candidate of the range has a larger DIC.
    When it returns [None], no successfully evaluated candidate has a DIC
    above [-inf]. *)
Theorem SelectorDIC_select_maximum {obs params} (lib : Library obs params)
    all_word_sequences all_word_Xlengths this_word
    n_constant min_n max_n random_state verbose
    (s : ModelSelector obs) (out : list line) :
  ModelSelector_init all_word_sequences all_word_Xlengths this_word
    n_constant min_n max_n random_state verbose = Ok s ->
  exists r out',
    call (SelectorDIC_select lib) s out = (Ok r, s, out') /\
    match r with
    | Some m =>
        exists n logL scores inv dic,
          min_n <= n < max_n /\
          n_components m = n /\
          fit_candidate lib s n (X s) (lengths s) = Ok m /\
          hmm_score lib m (X s) (lengths s) = Ok logL /\
          corpus_scores lib s m = Ok scores /\
          length scores = length (keys all_word_sequences) /\
          In logL scores /\
          int_truediv 1 (len (keys all_word_sequences) - 1) = Ok inv /\
          dic = PyFloat.sub logL
                  (PyFloat.mul inv (PyFloat.sub (py_sum scores) logL)) /\
          DIC_candidate lib s n = Ok (m, dic) /\
          forall n' m' dic',
            min_n <= n' < max_n ->
            DIC_candidate lib s n' = Ok (m', dic') ->
            PyFloat.gt dic' dic = false
    | None =>
        forall n m dic,
          min_n <= n < max_n ->
          DIC_candidate lib s n = Ok (m, dic) ->
          PyFloat.gt dic PyFloat.neg_inf = false
    end.
Proof.
  intros Hinit. unfold ModelSelector_init in Hinit.
  destruct (dict_get all_word_sequences this_word) as [seqs|e] eqn:Ew;
    [|discriminate].
  destruct (dict_get all_word_Xlengths this_word) as [xl|e] eqn:Eh;
    [|discriminate].
  simpl in Hinit. inversion Hinit as [Hs]. clear Hinit.
  set (s0 := mkModelSelector _ _ _ _ _ _ _ _ _ _ _) in *. subst s.
  destruct (DIC_select_outcome lib s0 out) as (r & out' & E & H).
  exists r, out'. split; [exact E|].
  change (min_n_components s0) with min_n in H.
  change (max_n_components s0) with max_n in H.
  destruct r as [m|]; [|intros n m dic Hn; apply H; lia].
  destruct H as (n & dic & Hr & Hc & _ & Hmax & _).
  destruct (DIC_candidate_inv lib s0 n m dic Hc)
    as (Hfit & logL & scores & inv & Hs & Hcs & Hi & Hd).
  exists n, logL, scores, inv, dic.
  pose proof (fit_candidate_n_components lib s0 n _ _ m Hfit).
  split; [lia|]. split; [assumption|]. split; [assumption|].
  split; [assumption|]. split; [assumption|].
  split; [exact (rmap_list_length _ _ _ Hcs)|].
  split.
  { eapply rmap_list_In; [exact Hcs | exact (dict_get_In _ _ _ Ew) |].
    simpl. rewrite Eh. simpl. exact Hs. }
  split; [assumption|]. split; [assumption|]. split; [assumption|].
  intros n' m' dic' Hn'. apply Hmax. lia.
Qed.

(** C7. In [SelectorBIC.select] and [SelectorDIC.select] a later
    candidate replaces the running best only on strict improvement: the
    model returned, evaluated at state count [n], is not beaten by any
    candidate of the range, and no candidate evaluated before it (at a
    lower state count) has a score equal to its own.  Of several
    candidates with identical scores only the first encountered can be
    returned. *)
Theorem BIC_DIC_ties_keep_first {obs params} (lib : Library obs params)
    (s : ModelSelector obs) (out : list line) m s' out' :
  (call (SelectorBIC_select lib) s out = (Ok (Some m), s', out') ->
   exists n bic,
     min_n_components s <= n < max_n_components s /\
     BIC_candidate lib s n = Ok (m, bic) /\
     forall n' m' bic',
       min_n_components s <= n' < max_n_components s ->
       BIC_candidate lib s n' = Ok (m', bic') ->
       PyFloat.lt bic' bic = false /\
       (n' < n -> PyFloat.eqb bic' bic = false)) /\
  (call (SelectorDIC_select lib) s out = (Ok (Some m), s', out') ->
   exists n dic,
     min_n_components s <= n < max_n_components s /\
     DIC_candidate lib s n = Ok (m, dic) /\
     forall n' m' dic',
       min_n_components s <= n' < max_n_components s ->
       DIC_candidate lib s n' = Ok (m', dic') ->
       PyFloat.gt dic' dic = false /\
       (n' < n -> PyFloat.eqb dic' dic = false)).
Proof.
  split; intros E.
  - destruct (BIC_select_outcome lib s out) as (r & out1 & E1 & H).
    rewrite E1 in E. injection E as -> _ _.
    destruct H as (n & bic & Hn & Hc & _ & Hbest & Hfirst).
    exists n, bic. split; [lia|]. split; [exact Hc|].
    intros n' m' bic' Hn' Hc'. split.
    + eapply Hbest; [|exact Hc']. lia.
    + intros Hlt. eapply Hfirst; [|exact Hc']. lia.
  - destruct (DIC_select_outcome lib s out) as (r & out1 & E1 & H).
    rewrite E1 in E. injection E as -> _ _.
    destruct H as (n & dic & Hn & Hc & _ & Hbest & Hfirst).
    exists n, dic. split; [lia|]. split; [exact Hc|].
    intros n' m' dic' Hn' Hc'. split.
    + eapply Hbest; [|exact Hc']. lia.
    + intros Hlt. eapply Hfirst; [|exact Hc']. lia.
Qed.


(** C9.  With at most two sequences [SelectorCV.select] never splits into
    folds: for each state count of
    [range(min_n_components, max_n_components + 1)] it fits once on the
    item's full flattened data and scores that same data (one line per
    state count in verbose mode), it leaves [X] and [lengths] as they
    were, and its outcome does not depend on the fold splitter or on the
    mean at all. *)
Theorem SelectorCV_fallback {obs params} (lib : Library obs params)
    (s : ModelSelector obs) (out : list line) :
  len (sequences s) <= 2 ->
  call (SelectorCV_select lib) s out =
    (Ok (fst (search PyFloat.gt (None, PyFloat.neg_inf)
                (map (full_data_candidate lib s)
                   (py_range (min_n_components s) (max_n_components s + 1))))),
     s,
     out ++ flat_map (fun n => base_model_lines lib s n (X s) (lengths s))
              (py_range (min_n_components s) (max_n_components s + 1))) /\
  forall mean' split',
    call (SelectorCV_select
            (mkLibrary (hmm_fit lib) (hmm_score lib) (hmm_n_features lib)
                       (np_log lib) mean' split')) s out =
    call (SelectorCV_select lib) s out.
Proof.
  intros Hlen.
  assert (Hlen' : (len (sequences s) >? 2) = false) by lia.
  assert (Hfallback : forall lib0 : Library obs params,
    call (SelectorCV_select lib0) s out =
      (Ok (fst (search PyFloat.gt (None, PyFloat.neg_inf)
                  (map (full_data_candidate lib0 s)
                     (py_range (min_n_components s) (max_n_components s + 1))))),
       s,
       out ++ flat_map (fun n => base_model_lines lib0 s n (X s) (lengths s))
                (py_range (min_n_components s) (max_n_components s + 1)))).
  { intros lib0.
    destruct (CV_select_spec lib0 s out) as (s' & out' & E & _ & Hsm & _).
    destruct (Hsm Hlen') as [-> ->]. rewrite E.
    replace (map (CV_candidate lib0 s)) with (map (full_data_candidate lib0 s));
      [reflexivity|].
    f_equal. unfold CV_candidate. now rewrite Hlen'. }
  split; [apply Hfallback|].
  intros mean' split'. rewrite !Hfallback. reflexivity.
Qed.

(** C10.  On an item with more than two sequences, with a non-empty
    search range and a split that yields at least one fold whose training
    indices can all be concatenated, [SelectorCV.select] returns with
    [X] and [lengths] bound to the concatenation of the training sequences
    of the last fold it processed (the fold at which the loop for the last
    state count, [max_n_components], stopped); the other fields are
    untouched and the original [X] and [lengths] are not restored. *)
Theorem SelectorCV_leaves_last_fold {obs params} (lib : Library obs params)
    (s : ModelSelector obs) (out : list line) folds :
  len (sequences s) > 2 ->
  min_n_components s <= max_n_components s ->
  kf_split lib (sequences s) = Ok folds ->
  folds <> [] ->
  Forall (train_combines s) folds ->
  exists r s' out' fold xl,
    call (SelectorCV_select lib) s out = (Ok r, s', out') /\
    last_processed_fold lib s (max_n_components s) folds = Some fold /\
    In fold folds /\
    combine_sequences (fst fold) (sequences s) = Ok xl /\
    s' = set_X_lengths xl s /\
    X s' = fst xl /\ lengths s' = snd xl /\
    (xl <> (X s, lengths s) -> s' <> s).
Proof.
  intros Hlen Hrange Hsplit Hne Hall.
  destruct (CV_select_spec lib s out) as (s' & out' & E & _ & _ & _ & Hlast).
  destruct (Hlast folds) as (fold & xl & Hl & Hc & Hs); auto.
  - lia.
  - intros Hnil. apply py_range_nil in Hnil. lia.
  - rewrite py_range_last in Hl by assumption.
    do 2 eexists. exists out', fold, xl.
    split; [exact E|]. split; [exact Hl|].
    split; [exact (last_processed_fold_In lib s _ folds fold Hl)|].
    split; [exact Hc|]. split; [exact Hs|].
    rewrite Hs. simpl. split; [reflexivity|]. split; [reflexivity|].
    intros Hxl Heq. apply Hxl.
    pose proof (f_equal X Heq) as H1. pose proof (f_equal lengths Heq) as H2.
    destruct xl. simpl in H1, H2. congruence.
Qed.

(** * The claims on concrete inputs *)

(** C1, counterexample.  On JOHN (three sequences, so three folds) the
    candidates with 2 and 3 states have the same mean fold score, -5, the
    best of the range; [SelectorCV.select] returns the candidate with 2
    states, evaluated first, and not the later one with 3 states. *)
Lemma SelectorCV_tie_returns_earlier :
  CV_candidate Toy.tied_lib Toy.john_selector 2 = Ok (Toy.model 2, PyFloat.of_Z (-5)) /\
  CV_candidate Toy.tied_lib Toy.john_selector 3 = Ok (Toy.model 3, PyFloat.of_Z (-5)) /\
  CV_candidate Toy.tied_lib Toy.john_selector 4 = Ok (Toy.model 4, PyFloat.of_Z (-9)) /\
  fst (fst (call (SelectorCV_select Toy.tied_lib) Toy.john_selector [])) =
    Ok (Some (Toy.model 2)) /\
  fst (fst (call (SelectorCV_select Toy.tied_lib) Toy.john_selector [])) <>
    Ok (Some (Toy.model 3)).
Proof. vm_compute. repeat split; discriminate. Qed.

Lemma SelectorCV_ties_keep_first_witness :
  call (SelectorCV_select Toy.tied_lib) Toy.john_selector [] =
    (Ok (Some (Toy.model 2)),
     set_X_lengths ([1; 2; 3], [2; 1]) Toy.john_selector,
     [model_created "JOHN" 2; model_created "JOHN" 2; model_created "JOHN" 2;
      model_created "JOHN" 3; model_created "JOHN" 3; model_created "JOHN" 3;
      model_created "JOHN" 4; model_created "JOHN" 4; model_created "JOHN" 4]) /\
  exists n sc,
    min_n_components Toy.john_selector <= n <= max_n_components Toy.john_selector /\
    CV_candidate Toy.tied_lib Toy.john_selector n = Ok (Toy.model 2, sc) /\
    forall n' m' sc',
      min_n_components Toy.john_selector <= n' <= max_n_components Toy.john_selector ->
      CV_candidate Toy.tied_lib Toy.john_selector n' = Ok (m', sc') ->
      PyFloat.gt sc' sc = false /\ (n' < n -> PyFloat.eqb sc' sc = false).
Proof.
  assert (H : call (SelectorCV_select Toy.tied_lib) Toy.john_selector [] =
    (Ok (Some (Toy.model 2)),
     set_X_lengths ([1; 2; 3], [2; 1]) Toy.john_selector,
     [model_created "JOHN" 2; model_created "JOHN" 2; model_created "JOHN" 2;
      model_created "JOHN" 3; model_created "JOHN" 3; model_created "JOHN" 3;
      model_created "JOHN" 4; model_created "JOHN" 4; model_created "JOHN" 4]))
    by run.
  split; [exact H|].
  exact (SelectorCV_ties_keep_first Toy.tied_lib Toy.john_selector []
           (Toy.model 2) _ _ H).
Defined.

(** C2, counterexample.  With JOHN as the only word of the corpus
    ([M = 1]) [SelectorDIC.select] returns [None] as an ordinary result,
    although both state counts of the range were fitted: no error is
    signalled. *)
Lemma SelectorDIC_single_word_no_error :
  len (keys (words Toy.lonely_selector)) = 1 /\
  call (SelectorDIC_select Toy.size_lib) Toy.lonely_selector [] =
    (Ok None, Toy.lonely_selector,
     [model_created "JOHN" 2; model_created "JOHN" 3]).
Proof. split; run. Qed.

Lemma SelectorDIC_single_word_witness :
  len (keys (words Toy.lonely_selector)) = 1 /\
  (exists out',
     call (SelectorDIC_select Toy.size_lib) Toy.lonely_selector [] =
       (Ok None, Toy.lonely_selector, out')) /\
  DIC_candidate Toy.size_lib Toy.lonely_selector 2 = Raise ZeroDivisionError.
Proof.
  assert (H : len (keys (words Toy.lonely_selector)) = 1) by run.
  split; [exact H|].
  destruct (SelectorDIC_single_word_returns_None Toy.size_lib
              Toy.lonely_selector [] H) as [Hnone Hraise].
  split; [exact Hnone|].
  apply (Hraise 2 (Toy.model 2) (PyFloat.of_Z (-12)) [PyFloat.of_Z (-12)]); run.
Defined.



Lemma SelectorDIC_select_maximum_witness :
  ModelSelector_init Toy.all_word_sequences Toy.all_word_Xlengths "JOHN"
    3 2 4 14 true = Ok Toy.john_selector /\
  exists r out',
    call (SelectorDIC_select Toy.size_lib) Toy.john_selector [] =
      (Ok r, Toy.john_selector, out').
Proof.
  assert (H : ModelSelector_init Toy.all_word_sequences Toy.all_word_Xlengths
                "JOHN" 3 2 4 14 true = Ok Toy.john_selector) by run.
  split; [exact H|].
  destruct (SelectorDIC_select_maximum Toy.size_lib
              Toy.all_word_sequences Toy.all_word_Xlengths "JOHN" 3 2 4 14 true
              Toy.john_selector [] H) as (r & out' & E & _).
  exists r, out'. exact E.
Defined.

Lemma BIC_DIC_ties_keep_first_witness :
  (call (SelectorBIC_select Toy.bic_tied_lib) Toy.john_selector [] =
     (Ok (Some (Toy.model 2)), Toy.john_selector,
      [model_created "JOHN" 2; model_created "JOHN" 3]) /\
   BIC_candidate Toy.bic_tied_lib Toy.john_selector 2 = Ok (Toy.model 2, PyFloat.of_Z 17) /\
   BIC_candidate Toy.bic_tied_lib Toy.john_selector 3 = Ok (Toy.model 3, PyFloat.of_Z 17) /\
   exists n bic,
     min_n_components Toy.john_selector <= n < max_n_components Toy.john_selector /\
     BIC_candidate Toy.bic_tied_lib Toy.john_selector n = Ok (Toy.model 2, bic)) /\
  (call (SelectorDIC_select Toy.tied_lib) Toy.john_selector [] =
     (Ok (Some (Toy.model 2)), Toy.john_selector,
      [model_created "JOHN" 2; model_created "JOHN" 3]) /\
   exists n dic,
     min_n_components Toy.john_selector <= n < max_n_components Toy.john_selector /\
     DIC_candidate Toy.tied_lib Toy.john_selector n = Ok (Toy.model 2, dic)).
Proof.
  assert (HB : call (SelectorBIC_select Toy.bic_tied_lib) Toy.john_selector [] =
     (Ok (Some (Toy.model 2)), Toy.john_selector,
      [model_created "JOHN" 2; model_created "JOHN" 3])) by run.
  assert (HD : call (SelectorDIC_select Toy.tied_lib) Toy.john_selector [] =
     (Ok (Some (Toy.model 2)), Toy.john_selector,
      [model_created "JOHN" 2; model_created "JOHN" 3])) by run.
  split.
  - split; [exact HB|]. split; [run|]. split; [run|].
    destruct (proj1 (BIC_DIC_ties_keep_first Toy.bic_tied_lib Toy.john_selector []
                       (Toy.model 2) _ _) HB) as (n & bic & Hn & Hc & _).
    exists n, bic. split; [exact Hn | exact Hc].
  - split; [exact HD|].
    destruct (proj2 (BIC_DIC_ties_keep_first Toy.tied_lib Toy.john_selector []
                       (Toy.model 2) _ _) HD) as (n & dic & Hn & Hc & _).
    exists n, dic. split; [exact Hn | exact Hc].
Defined.

Lemma search_ranges_witness :
  (verbose Toy.john_selector = true /\
   CV_reaches_fit Toy.size_lib Toy.john_selector = true) /\
  (exists added,
     snd (call (SelectorBIC_select Toy.size_lib) Toy.john_selector []) = [] ++ added /\
     map line_states added =
       py_range (min_n_components Toy.john_selector)
                (max_n_components Toy.john_selector)) /\
  (exists added,
     snd (call (SelectorCV_select Toy.size_lib) Toy.john_selector []) = [] ++ added /\
     forall k,
       min_n_components Toy.john_selector <= k <= max_n_components Toy.john_selector ->
       In k (map line_states added)) /\
  py_range (min_n_components Toy.john_selector)
           (max_n_components Toy.john_selector) = [2; 3].
Proof.
  assert (H : verbose Toy.john_selector = true) by run.
  assert (Hr : CV_reaches_fit Toy.size_lib Toy.john_selector = true) by run.
  split; [split; assumption|].
  destruct (search_ranges Toy.size_lib Toy.john_selector [])
    as ((a1 & E1 & _ & H1) & _ & (s' & a3 & E3 & _ & H3) & _).
  split; [|split; [|run]].
  - exists a1. rewrite E1. split; [reflexivity | exact (H1 H)].
  - exists a3. rewrite E3. split; [reflexivity | exact (H3 H Hr)].
Defined.

Lemma SelectorCV_fallback_witness :
  len (sequences Toy.book_selector) <= 2 /\
  forall mean' split',
    call (SelectorCV_select
            (mkLibrary (hmm_fit Toy.size_lib) (hmm_score Toy.size_lib)
                       (hmm_n_features Toy.size_lib) (np_log Toy.size_lib)
                       mean' split')) Toy.book_selector [] =
    call (SelectorCV_select Toy.size_lib) Toy.book_selector [].
Proof.
  assert (H : len (sequences Toy.book_selector) <= 2) by (vm_compute; discriminate).
  split; [exact H|].
  exact (proj2 (SelectorCV_fallback Toy.size_lib Toy.book_selector [] H)).
Defined.

Lemma SelectorCV_leaves_last_fold_witness :
  (len (sequences Toy.john_selector) > 2 /\
   min_n_components Toy.john_selector <= max_n_components Toy.john_selector /\
   kf_split Toy.tied_lib (sequences Toy.john_selector) = Ok Toy.john_folds /\
   Toy.john_folds <> [] /\
   Forall (train_combines Toy.john_selector) Toy.john_folds) /\
  exists r s' out' fold xl,
    call (SelectorCV_select Toy.tied_lib) Toy.john_selector [] = (Ok r, s', out') /\
    In fold Toy.john_folds /\
    combine_sequences (fst fold) (sequences Toy.john_selector) = Ok xl /\
    X s' = fst xl /\ lengths s' = snd xl.
Proof.
  assert (H1 : len (sequences Toy.john_selector) > 2) by run.
  assert (H2 : min_n_components Toy.john_selector <=
               max_n_components Toy.john_selector) by (vm_compute; discriminate).
  assert (H3 : kf_split Toy.tied_lib (sequences Toy.john_selector) =
               Ok Toy.john_folds) by run.
  assert (H4 : Toy.john_folds <> []) by discriminate.
  assert (H5 : Forall (train_combines Toy.john_selector) Toy.john_folds).
  { repeat apply Forall_cons; try apply Forall_nil; run. }
  split; [auto|].
  destruct (SelectorCV_leaves_last_fold Toy.tied_lib Toy.john_selector []
              Toy.john_folds H1 H2 H3 H4 H5)
    as (r & s' & out' & fold & xl & E & _ & Hin & Hc & _ & HX & HL & _).
  exists r, s', out', fold, xl. auto.
Defined.

(** The instance that [select] leaves behind on JOHN: [X] and [lengths]
    are those of the first two sequences, the training part of the last
    fold, and no longer the six observations the instance was built
    with. *)
Example SelectorCV_rebinds_john :
  X Toy.john_selector = [1; 2; 3; 4; 5; 6] /\
  lengths Toy.john_selector = [2; 1; 3] /\
  last_processed_fold Toy.tied_lib Toy.john_selector 4 Toy.john_folds =
    Some ([0; 1], [2]) /\
  snd (fst (call (SelectorCV_select Toy.tied_lib) Toy.john_selector [])) =
    set_X_lengths ([1; 2; 3], [2; 1]) Toy.john_selector.
Proof. repeat split; run. Qed.

(** * Further properties of the selectors *)

(** ** Dictionaries and comprehensions *)

Lemma dict_get_found {V} (d : dict V) k :
  In k (keys d) -> exists v, dict_get d k = Ok v.
Proof.
  induction d as [|[k' v'] d IH]; simpl; [contradiction|].
  intros [->|Hin].
  - rewrite String.eqb_refl. eauto.
  - destruct (String.eqb k' k); eauto.
Qed.

Lemma dict_get_missing {V} (d : dict V) k :
  ~ In k (keys d) -> dict_get d k = Raise KeyError.
Proof.
  induction d as [|[k' v'] d IH]; simpl; [reflexivity|].
  intros Hnot. destruct (String.eqb_spec k' k) as [->|Hne].
  - exfalso. apply Hnot. now left.
  - apply IH. intros Hin. apply Hnot. now right.
Qed.

Lemma rmap_list_all_ok {A B} (g : A -> result B) l : forall ys,
  rmap_list g l = Ok ys ->
  forall a, In a l -> exists y, g a = Ok y /\ In y ys.
Proof.
  induction l as [|x l IH]; intros ys E a Hin; [contradiction|].
  simpl in E. destruct (g x) as [b|e] eqn:Ex; [|discriminate]. simpl in E.
  destruct (rmap_list g l) as [bs|e] eqn:El; [|discriminate]. simpl in E.
  inversion E; subst ys. destruct Hin as [->|Hin].
  - exists b. split; [assumption | now left].
  - destruct (IH bs eq_refl a Hin) as (y & Hy & Hiny).
    exists y. split; [assumption | now right].
Qed.

(** X1.  [ModelSelector.__init__] succeeds exactly when [this_word] is a
    key of both dictionaries, and raises [KeyError] otherwise.  The
    instance it builds keeps both dictionaries as given, and its
    [sequences], [X] and [lengths] are the entries of [this_word]: looking
    the word up in the instance's own dictionaries gives them back. *)
Theorem ModelSelector_init_keys {obs : Type}
    (all_word_sequences : dict (list (list obs)))
    (all_word_Xlengths : dict (Xlengths obs)) (this_word : string)
    (n_constant min_n max_n random_state : Z) (verbose : bool) :
  (In this_word (keys all_word_sequences) /\
   In this_word (keys all_word_Xlengths) ->
   exists s,
     ModelSelector_init all_word_sequences all_word_Xlengths this_word
       n_constant min_n max_n random_state verbose = Ok s /\
     words s = all_word_sequences /\ hwords s = all_word_Xlengths /\
     dict_get (words s) this_word = Ok (sequences s) /\
     dict_get (hwords s) this_word = Ok (X s, lengths s) /\
     configured_with s this_word n_constant min_n max_n random_state verbose) /\
  (~ (In this_word (keys all_word_sequences) /\
      In this_word (keys all_word_Xlengths)) ->
   ModelSelector_init all_word_sequences all_word_Xlengths this_word
     n_constant min_n max_n random_state verbose = Raise KeyError).
Proof.
  unfold ModelSelector_init. split.
  - intros [H1 H2].
    destruct (dict_get_found _ _ H1) as [seqs E1].
    destruct (dict_get_found _ _ H2) as [[X0 L0] E2].
    rewrite E1, E2. simpl. eexists. split; [reflexivity|]. simpl.
    repeat split; assumption.
  - intros Hnot.
    destruct (dict_get all_word_sequences this_word) as [seqs|e] eqn:E1.
    + destruct (dict_get all_word_Xlengths this_word) as [xl|e] eqn:E2.
      * exfalso. apply Hnot. split; eapply dict_get_In; eassumption.
      * simpl. f_equal.
        assert (Hm : ~ In this_word (keys all_word_Xlengths)).
        { intros Hin. destruct (dict_get_found _ _ Hin) as [v Hv]. congruence. }
        rewrite (dict_get_missing _ _ Hm) in E2. congruence.
    + simpl. f_equal.
      assert (Hm : ~ In this_word (keys all_word_sequences)).
      { intros Hin. destruct (dict_get_found _ _ Hin) as [v Hv]. congruence. }
      rewrite (dict_get_missing _ _ Hm) in E1. congruence.
Qed.

(** X2.  [base_model] never raises, whatever the fitting library raises,
    and never touches the instance.  When the fit succeeds it returns the
    model with the requested number of states, diagonal covariance, 1000
    iterations and the instance's random state; when the fit fails it
    returns [None].  It prints exactly one line in verbose mode (naming the
    word and the state count) and nothing otherwise. *)
Theorem base_model_never_raises {obs params} (lib : Library obs params)
    (s : ModelSelector obs) (out : list line) (num_states : Z) :
  exists r out',
    call (base_model lib num_states) s out = (Ok r, s, out') /\
    match hmm_fit lib num_states "diag" 1000 (random_state s) (X s) (lengths s) with
    | Ok p =>
        r = Some (mkGaussianHMM num_states "diag" 1000 (random_state s) p) /\
        out' = out ++ (if verbose s
                       then [model_created (this_word s) num_states] else [])
    | Raise _ =>
        r = None /\
        out' = out ++ (if verbose s
                       then [failure_on (this_word s) num_states] else [])
    end.
Proof.
  unfold call. rewrite base_model_spec. simpl.
  do 2 eexists. split; [reflexivity|].
  unfold fit_candidate, base_model_lines, fit_candidate.
  destruct (hmm_fit lib num_states "diag" 1000 _ _ _); simpl;
    destruct (verbose s); split; reflexivity.
Qed.

(** X3.  With [max_n_components <= min_n_components] the loops of
    [SelectorBIC.select] and [SelectorDIC.select] run over an empty range:
    both return [None] without fitting or printing anything.
    [SelectorCV.select] does the same only when
    [max_n_components < min_n_components]; when the two bounds are equal
    it still evaluates that one state count, and returns its candidate
    exactly when the candidate's score is above [-inf]. *)
Theorem empty_search_range {obs params} (lib : Library obs params)
    (s : ModelSelector obs) (out : list line) :
  max_n_components s <= min_n_components s ->
  call (SelectorBIC_select lib) s out = (Ok None, s, out) /\
  call (SelectorDIC_select lib) s out = (Ok None, s, out) /\
  (max_n_components s < min_n_components s ->
   call (SelectorCV_select lib) s out = (Ok None, s, out)) /\
  (max_n_components s = min_n_components s ->
   fst (fst (call (SelectorCV_select lib) s out)) =
     Ok (match CV_candidate lib s (min_n_components s) with
         | Ok (m, sc) => if PyFloat.gt sc PyFloat.neg_inf then Some m else None
         | Raise _ => None
         end)).
Proof.
  intros Hle.
  assert (Hnil : py_range (min_n_components s) (max_n_components s) = [])
    by now apply py_range_nil.
  split; [|split; [|split]].
  - rewrite BIC_select_spec, Hnil. simpl. now rewrite app_nil_r.
  - rewrite DIC_select_spec, Hnil. simpl. now rewrite app_nil_r.
  - intros Hlt. unfold call, SelectorCV_select, bind, set_best_model, modify, gets.
    simpl. rewrite (proj2 (py_range_nil _ _)) by lia. reflexivity.
  - intros Heq. destruct (CV_select_spec lib s out) as (s' & out' & E & _).
    rewrite E. simpl. rewrite Heq, py_range_snoc by lia.
    rewrite (proj2 (py_range_nil _ _)) by lia. simpl.
    destruct (CV_candidate lib s (min_n_components s)) as [[m sc]|e]; simpl;
      [|reflexivity].
    now destruct (PyFloat.gt sc PyFloat.neg_inf).
Qed.

(** ** Verbose mode *)

Section Quiet.

Context {obs params : Type} (lib : Library obs params).

Lemma quiet_lines (s : ModelSelector obs) X0 L0 l :
  verbose s = false ->
  flat_map (fun n => base_model_lines lib s n X0 L0) l = [].
Proof.
  intros Hv. induction l as [|n l IH]; [reflexivity|].
  simpl. rewrite IH. unfold base_model_lines. now rewrite Hv.
Qed.

Lemma CV_fold_quiet n fold (f : Frame obs params) r f' :
  verbose (self f) = false ->
  SelectorCV_fold lib n fold f = (r, f') ->
  stdout f' = stdout f /\ verbose (self f') = false.
Proof.
  intros Hv E. destruct fold as [i_train i_test]. unfold SelectorCV_fold in E.
  unfold bind at 1, gets at 1 in E. unfold bind at 1, lift at 1 in E.
  destruct (combine_sequences i_train _) as [xl|e]; simpl in E;
    [|quiet_done E].
  unfold bind at 1, set_self at 1, modify at 1 in E.
  unfold bind at 1, gets at 1 in E. simpl in E.
  unfold bind at 1, lift at 1 in E.
  destruct (combine_sequences i_test _) as [test|e]; simpl in E;
    [|quiet_done E].
  unfold bind at 1 in E. rewrite base_model_spec in E. simpl in E.
  unfold base_model_lines in E. simpl in E. rewrite Hv, app_nil_r in E.
  destruct (fit_candidate lib _ n _ _) as [m|e]; run_py; simpl in E.
  - unfold bind, set_hmm_model, modify, read_local, gets, ret, call_score,
      lift in E. simpl in E. quiet_done E.
  - unfold bind, set_hmm_model, modify, read_local, gets, ret, call_score,
      raise in E. simpl in E. quiet_done E.
Qed.

Lemma CV_folds_quiet n folds : forall scores (f : Frame obs params) r f',
  verbose (self f) = false ->
  SelectorCV_folds lib n folds scores f = (r, f') ->
  stdout f' = stdout f /\ verbose (self f') = false.
Proof.
  induction folds as [|fold rest IH]; intros scores f r f' Hv E; simpl in E.
  - quiet_done E.
  - unfold bind at 1 in E.
    destruct (SelectorCV_fold lib n fold f) as [[ll|e] f1] eqn:E1.
    + destruct (CV_fold_quiet n fold f _ _ Hv E1) as [Ho Hv'].
      destruct (IH _ _ _ _ Hv' E) as [Ho2 Hv2]. split; congruence.
    + destruct (CV_fold_quiet n fold f _ _ Hv E1) as [Ho Hv'].
      inversion E; subst. auto.
Qed.

Lemma CV_body_quiet n (f : Frame obs params) r f' :
  verbose (self f) = false ->
  try_pass (SelectorCV_body lib n) f = (r, f') ->
  stdout f' = stdout f /\ verbose (self f') = false.
Proof.
  intros Hv E. unfold try_pass, try_except, SelectorCV_body in E.
  unfold bind at 1, gets at 1 in E. unfold bind at 1 in E.
  destruct (len (sequences (self f)) >? 2).
  - unfold bind at 1, lift at 1 in E.
    destruct (kf_split lib (sequences (self f))) as [folds|e]; simpl in E;
      [|quiet_done E].
    unfold bind at 1 in E.
    destruct (SelectorCV_folds lib n folds [] f) as [[scores|e] f1] eqn:E1;
      destruct (CV_folds_quiet n folds [] f _ _ Hv E1) as [Ho Hv'];
      [|quiet_done E].
    unfold read_local, set_best_model, bind, gets, modify, ret, raise in E.
    destruct (hmm_model f1); simpl in E; [|quiet_done E].
    destruct (best_model f1); simpl in E; quiet_done E.
  - unfold bind at 1 in E. rewrite base_model_spec in E.
    unfold base_model_lines in E. rewrite Hv, app_nil_r in E.
    destruct (fit_candidate lib (self f) n _ _) as [m|e].
    + unfold read_local, set_best_model, set_hmm_model, call_score, bind,
        gets, modify, ret, raise, lift in E. simpl in E.
      destruct (hmm_score lib m _ _); simpl in E; [|quiet_done E].
      destruct (best_model f); simpl in E; quiet_done E.
    + unfold read_local, set_best_model, set_hmm_model, call_score, bind,
        gets, modify, ret, raise, lift in E. simpl in E. quiet_done E.
Qed.

Lemma CV_loop_quiet l : forall (f : Frame obs params) r f',
  verbose (self f) = false ->
  for_each l (fun n => try_pass (SelectorCV_body lib n)) f = (r, f') ->
  stdout f' = stdout f.
Proof.
  induction l as [|n l IH]; intros f r f' Hv E; simpl in E.
  - now inversion E.
  - unfold bind at 1 in E.
    destruct (try_pass (SelectorCV_body lib n) f) as [[[]|e] f1] eqn:E1;
      destruct (CV_body_quiet n f _ _ Hv E1) as [Ho Hv'].
    + rewrite (IH _ _ _ Hv' E). exact Ho.
    + inversion E; subst. exact Ho.
Qed.

End Quiet.

(** X4.  The [verbose] flag only switches printing.  The model each of
    the four [select] methods returns is the one it returns on the same
    instance with any other setting of the flag, and with
    [verbose = False] no [select] method prints anything. *)
Theorem verbose_only_prints {obs params} (lib : Library obs params)
    (s : ModelSelector obs) (out : list line) (b : bool) :
  (fst (fst (call (SelectorConstant_select lib) (set_verbose b s) out)) =
     fst (fst (call (SelectorConstant_select lib) s out)) /\
   fst (fst (call (SelectorBIC_select lib) (set_verbose b s) out)) =
     fst (fst (call (SelectorBIC_select lib) s out)) /\
   fst (fst (call (SelectorDIC_select lib) (set_verbose b s) out)) =
     fst (fst (call (SelectorDIC_select lib) s out)) /\
   fst (fst (call (SelectorCV_select lib) (set_verbose b s) out)) =
     fst (fst (call (SelectorCV_select lib) s out))) /\
  (snd (call (SelectorConstant_select lib) (set_verbose false s) out) = out /\
   snd (call (SelectorBIC_select lib) (set_verbose false s) out) = out /\
   snd (call (SelectorDIC_select lib) (set_verbose false s) out) = out /\
   snd (call (SelectorCV_select lib) (set_verbose false s) out) = out).
Proof.
  split; [split; [|split; [|split]] | split; [|split; [|split]]].
  - now rewrite !Constant_select_spec.
  - now rewrite !BIC_select_spec.
  - now rewrite !DIC_select_spec.
  - destruct (CV_select_spec lib s out) as (s1 & o1 & E1 & _).
    destruct (CV_select_spec lib (set_verbose b s) out) as (s2 & o2 & E2 & _).
    rewrite E1, E2. simpl. do 3 f_equal.
    apply map_ext. intros n. unfold CV_candidate, full_data_candidate. simpl.
    destruct (len (sequences s) >? 2); [|reflexivity].
    destruct (kf_split lib (sequences s)) as [folds|e]; [|reflexivity]. simpl.
    replace (CV_folds_eval lib (set_verbose b s) n folds None [])
      with (CV_folds_eval lib s n folds None []); [reflexivity|].
    generalize (@None (GaussianHMM params)) (@nil float).
    induction folds as [|fold rest IH]; intros last scores; [reflexivity|].
    simpl.
    change (CV_fold_candidate lib (set_verbose b s) n fold)
      with (CV_fold_candidate lib s n fold).
    destruct (CV_fold_candidate lib s n fold); simpl; auto.
  - rewrite Constant_select_spec. simpl. unfold base_model_lines. simpl.
    apply app_nil_r.
  - rewrite BIC_select_spec. simpl. rewrite quiet_lines by reflexivity.
    apply app_nil_r.
  - rewrite DIC_select_spec. simpl. rewrite quiet_lines by reflexivity.
    apply app_nil_r.
  - unfold call, SelectorCV_select, bind at 1, set_best_model at 1,
      modify at 1, bind at 1, gets at 1, bind at 1.
    simpl.
    destruct (for_each _ _ _) as [[[]|e] f1] eqn:E;
      apply (CV_loop_quiet lib) in E; try reflexivity; simpl in E.
    + unfold read_local, bind, gets, ret, raise.
      destruct (best_model f1); simpl; exact E.
    + exact E.
Qed.

(** ** What cross-validation does to the instance *)

(** X5.  [SelectorCV.select] never changes any field of the instance
    other than [X] and [lengths]: both corpus dictionaries, the sequences,
    the word and the whole configuration are as before, whatever the
    library does; with at most two sequences [X] and [lengths] are as
    before too. *)
Theorem SelectorCV_frame {obs params} (lib : Library obs params)
    (s : ModelSelector obs) (out : list line) r s' out' :
  call (SelectorCV_select lib) s out = (r, s', out') ->
  words s' = words s /\ hwords s' = hwords s /\ sequences s' = sequences s /\
  configured_with s' (this_word s) (n_constant s) (min_n_components s)
    (max_n_components s) (random_state s) (verbose s) /\
  (len (sequences s) <= 2 -> s' = s).
Proof.
  intros E.
  destruct (CV_select_spec lib s out) as (s1 & out1 & E1 & [xl Hx] & Hsm & _).
  rewrite E1 in E. injection E as _ <- _.
  split; [|split; [|split; [|split]]]; try (rewrite Hx; reflexivity).
  - rewrite Hx. unfold configured_with. simpl. repeat split.
  - intros Hlen. apply Hsm. lia.
Qed.

(** X6.  [SelectorCV.select] can be called again on the instance it left
    behind: although the first call may have rebound [X] and [lengths],
    the second call returns the same model as the first. *)
Theorem SelectorCV_select_twice {obs params} (lib : Library obs params)
    (s : ModelSelector obs) (out : list line) r s' out' :
  call (SelectorCV_select lib) s out = (r, s', out') ->
  fst (fst (call (SelectorCV_select lib) s' out')) = r.
Proof.
  intros E.
  destruct (CV_select_spec lib s out) as (s1 & out1 & E1 & [xl Hx] & Hsm & _).
  rewrite E1 in E. injection E as <- <- <-.
  destruct (CV_select_spec lib s1 out1) as (s2 & out2 & E2 & _).
  rewrite E2. simpl.
  destruct (len (sequences s) >? 2) eqn:Hlen.
  - rewrite Hx. simpl. do 3 f_equal. apply map_ext. intros n.
    now apply CV_candidate_rebound.
  - destruct (Hsm eq_refl) as [-> _]. reflexivity.
Qed.

Section Folds.

Context {obs params : Type} (lib : Library obs params).

(** When the split gives no fold to work on, an iteration of the
    cross-validation loop changes nothing at all. *)
Lemma CV_body_without_folds n (f : Frame obs params) :
  (len (sequences (self f)) >? 2) = true ->
  (forall folds, kf_split lib (sequences (self f)) = Ok folds -> folds = []) ->
  hmm_model f = None ->
  try_pass (SelectorCV_body lib n) f = (Ok tt, f).
Proof.
  intros Hlen Hsplit Hunbound.
  unfold try_pass, try_except, SelectorCV_body.
  unfold bind at 1, gets at 1. unfold bind at 1. rewrite Hlen.
  unfold bind at 1, lift at 1.
  destruct (kf_split lib (sequences (self f))) as [folds|e] eqn:E;
    [|reflexivity].
  rewrite (Hsplit folds eq_refl). simpl.
  unfold read_local, bind, gets, ret, raise. rewrite Hunbound. reflexivity.
Qed.

Lemma CV_loop_without_folds l (f : Frame obs params) :
  (len (sequences (self f)) >? 2) = true ->
  (forall folds, kf_split lib (sequences (self f)) = Ok folds -> folds = []) ->
  hmm_model f = None ->
  for_each l (fun n => try_pass (SelectorCV_body lib n)) f = (Ok tt, f).
Proof.
  intros Hlen Hsplit Hunbound. induction l as [|n l IH]; [reflexivity|].
  simpl. unfold bind at 1. now rewrite CV_body_without_folds.
Qed.



End Folds.

(** X7.  When the item has more than two sequences but the splitter gives
    nothing to work on (it raises, as [KFold] does with fewer samples than
    splits, or it yields no fold), [SelectorCV.select] returns [None] for
    every search range, without fitting or printing anything and without
    touching the instance. *)
Theorem SelectorCV_without_folds {obs params} (lib : Library obs params)
    (s : ModelSelector obs) (out : list line) :
  len (sequences s) > 2 ->
  (forall folds, kf_split lib (sequences s) = Ok folds -> folds = []) ->
  call (SelectorCV_select lib) s out = (Ok None, s, out).
Proof.
  intros Hlen Hsplit.
  unfold call, SelectorCV_select, bind at 1, set_best_model at 1, modify at 1,
    bind at 1, gets at 1, bind at 1.
  simpl. rewrite CV_loop_without_folds; simpl; try reflexivity; try assumption.
  lia.
Qed.

(** X8.  A model returned by [SelectorDIC.select] was scored successfully
    on every word of the corpus: each key of [words] has an entry in
    [hwords] and the model's [score] on that entry did not raise.  In
    particular a word of [words] missing from [hwords], or a corpus of a
    single word, makes [select] return no model. *)
Theorem SelectorDIC_scored_every_word {obs params} (lib : Library obs params)
    (s : ModelSelector obs) (out : list line) m s' out' :
  call (SelectorDIC_select lib) s out = (Ok (Some m), s', out') ->
  len (keys (words s)) <> 1 /\
  forall w, In w (keys (words s)) ->
    exists xl ll,
      dict_get (hwords s) w = Ok xl /\
      hmm_score lib m (fst xl) (snd xl) = Ok ll.
Proof.
  intros E.
  destruct (DIC_select_outcome lib s out) as (r & out1 & E1 & H).
  rewrite E1 in E. injection E as -> _ _.
  destruct H as (n & dic & _ & Hc & _).
  apply DIC_candidate_inv in Hc
    as (_ & logL & scores & inv & _ & Hcs & Hinv & _).
  split.
  - intros HM. rewrite HM in Hinv. discriminate.
  - intros w Hw.
    destruct (rmap_list_all_ok _ _ _ Hcs w Hw) as (ll & Hll & _).
    destruct (dict_get (hwords s) w) as [xl|e]; [|discriminate].
    exists xl, ll. auto.
Qed.

(** X9.  No [select] method returns a model whose score is NaN or equal
    to the initial sentinel: the BIC of the model [SelectorBIC] returns is
    a number strictly below [inf], and the scores of the models
    [SelectorDIC] and [SelectorCV] return are numbers strictly above
    [-inf]. *)
Theorem selected_score_is_a_number {obs params} (lib : Library obs params)
    (s : ModelSelector obs) (out : list line) m s' out' :
  (call (SelectorBIC_select lib) s out = (Ok (Some m), s', out') ->
   exists n bic,
     BIC_candidate lib s n = Ok (m, bic) /\
     PyFloat.lt bic PyFloat.inf = true /\
     bic <> S754_nan /\ bic <> PyFloat.inf) /\
  (call (SelectorDIC_select lib) s out = (Ok (Some m), s', out') ->
   exists n dic,
     DIC_candidate lib s n = Ok (m, dic) /\
     PyFloat.gt dic PyFloat.neg_inf = true /\
     dic <> S754_nan /\ dic <> PyFloat.neg_inf) /\
  (call (SelectorCV_select lib) s out = (Ok (Some m), s', out') ->
   exists n sc,
     CV_candidate lib s n = Ok (m, sc) /\
     PyFloat.gt sc PyFloat.neg_inf = true /\
     sc <> S754_nan /\ sc <> PyFloat.neg_inf).
Proof.
  split; [|split]; intros E.
  - destruct (BIC_select_outcome lib s out) as (r & out1 & E1 & H).
    rewrite E1 in E. injection E as -> _ _.
    destruct H as (n & bic & _ & Hc & Hs & _).
    exists n, bic. repeat split; auto; intros ->; discriminate.
  - destruct (DIC_select_outcome lib s out) as (r & out1 & E1 & H).
    rewrite E1 in E. injection E as -> _ _.
    destruct H as (n & dic & _ & Hc & Hs & _).
    exists n, dic. repeat split; auto; intros ->; discriminate.
  - destruct (CV_select_outcome lib s out) as (r & s1 & out1 & E1 & H).
    rewrite E1 in E. injection E as -> _ _.
    destruct H as (n & sc & _ & Hc & Hs & _).
    exists n, sc. repeat split; auto; intros ->; discriminate.
Qed.


(** ** The further properties on concrete inputs *)

Lemma empty_search_range_witness :
  max_n_components Toy.equal_range_selector <=
    min_n_components Toy.equal_range_selector /\
  call (SelectorBIC_select Toy.size_lib) Toy.equal_range_selector [] =
    (Ok None, Toy.equal_range_selector, []) /\
  call (SelectorDIC_select Toy.size_lib) Toy.equal_range_selector [] =
    (Ok None, Toy.equal_range_selector, []).
Proof.
  assert (H : max_n_components Toy.equal_range_selector <=
              min_n_components Toy.equal_range_selector)
    by (vm_compute; discriminate).
  split; [exact H|].
  destruct (empty_search_range Toy.size_lib Toy.equal_range_selector [] H)
    as (HB & HD & _).
  split; [exact HB | exact HD].
Defined.

(** With equal bounds the cross-validated selector still finds the model
    with 3 states, where the BIC selector finds nothing. *)
Example equal_bounds_asymmetry :
  fst (fst (call (SelectorCV_select Toy.size_lib) Toy.equal_range_selector [])) =
    Ok (Some (Toy.model 3)) /\
  fst (fst (call (SelectorBIC_select Toy.size_lib) Toy.equal_range_selector [])) =
    Ok None.
Proof. split; run. Qed.

Lemma SelectorCV_frame_witness :
  call (SelectorCV_select Toy.tied_lib) Toy.john_selector [] =
    (Ok (Some (Toy.model 2)),
     set_X_lengths ([1; 2; 3], [2; 1]) Toy.john_selector,
     [model_created "JOHN" 2; model_created "JOHN" 2; model_created "JOHN" 2;
      model_created "JOHN" 3; model_created "JOHN" 3; model_created "JOHN" 3;
      model_created "JOHN" 4; model_created "JOHN" 4; model_created "JOHN" 4]) /\
  words (set_X_lengths ([1; 2; 3], [2; 1]) Toy.john_selector) =
    words Toy.john_selector /\
  hwords (set_X_lengths ([1; 2; 3], [2; 1]) Toy.john_selector) =
    hwords Toy.john_selector.
Proof.
  assert (H : call (SelectorCV_select Toy.tied_lib) Toy.john_selector [] =
    (Ok (Some (Toy.model 2)),
     set_X_lengths ([1; 2; 3], [2; 1]) Toy.john_selector,
     [model_created "JOHN" 2; model_created "JOHN" 2; model_created "JOHN" 2;
      model_created "JOHN" 3; model_created "JOHN" 3; model_created "JOHN" 3;
      model_created "JOHN" 4; model_created "JOHN" 4; model_created "JOHN" 4]))
    by run.
  split; [exact H|].
  destruct (SelectorCV_frame Toy.tied_lib Toy.john_selector [] _ _ _ H)
    as (Hw & Hh & _).
  split; [exact Hw | exact Hh].
Defined.

Lemma SelectorCV_select_twice_witness :
  call (SelectorCV_select Toy.tied_lib) Toy.john_selector [] =
    (Ok (Some (Toy.model 2)),
     set_X_lengths ([1; 2; 3], [2; 1]) Toy.john_selector,
     [model_created "JOHN" 2; model_created "JOHN" 2; model_created "JOHN" 2;
      model_created "JOHN" 3; model_created "JOHN" 3; model_created "JOHN" 3;
      model_created "JOHN" 4; model_created "JOHN" 4; model_created "JOHN" 4]) /\
  fst (fst (call (SelectorCV_select Toy.tied_lib)
              (set_X_lengths ([1; 2; 3], [2; 1]) Toy.john_selector)
              [model_created "JOHN" 2; model_created "JOHN" 2;
               model_created "JOHN" 2; model_created "JOHN" 3;
               model_created "JOHN" 3; model_created "JOHN" 3;
               model_created "JOHN" 4; model_created "JOHN" 4;
               model_created "JOHN" 4])) =
    Ok (Some (Toy.model 2)).
Proof.
  assert (H : call (SelectorCV_select Toy.tied_lib) Toy.john_selector [] =
    (Ok (Some (Toy.model 2)),
     set_X_lengths ([1; 2; 3], [2; 1]) Toy.john_selector,
     [model_created "JOHN" 2; model_created "JOHN" 2; model_created "JOHN" 2;
      model_created "JOHN" 3; model_created "JOHN" 3; model_created "JOHN" 3;
      model_created "JOHN" 4; model_created "JOHN" 4; model_created "JOHN" 4]))
    by run.
  split; [exact H|].
  exact (SelectorCV_select_twice Toy.tied_lib Toy.john_selector [] _ _ _ H).
Defined.

Lemma SelectorCV_without_folds_witness :
  (len (sequences Toy.john_selector) > 2 /\
   forall folds,
     kf_split Toy.failing_split_lib (sequences Toy.john_selector) = Ok folds ->
     folds = []) /\
  call (SelectorCV_select Toy.failing_split_lib) Toy.john_selector [] =
    (Ok None, Toy.john_selector, []).
Proof.
  assert (H1 : len (sequences Toy.john_selector) > 2) by run.
  assert (H2 : forall folds,
     kf_split Toy.failing_split_lib (sequences Toy.john_selector) = Ok folds ->
     folds = []) by (intros folds H; discriminate H).
  split; [split; assumption|].
  exact (SelectorCV_without_folds Toy.failing_split_lib Toy.john_selector []
           H1 H2).
Defined.

Lemma SelectorDIC_scored_every_word_witness :
  call (SelectorDIC_select Toy.size_lib) Toy.john_selector [] =
    (Ok (Some (Toy.model 2)), Toy.john_selector,
     [model_created "JOHN" 2; model_created "JOHN" 3]) /\
  len (keys (words Toy.john_selector)) <> 1 /\
  forall w, In w (keys (words Toy.john_selector)) ->
    exists xl ll,
      dict_get (hwords Toy.john_selector) w = Ok xl /\
      hmm_score Toy.size_lib (Toy.model 2) (fst xl) (snd xl) = Ok ll.
Proof.
  assert (H : call (SelectorDIC_select Toy.size_lib) Toy.john_selector [] =
    (Ok (Some (Toy.model 2)), Toy.john_selector,
     [model_created "JOHN" 2; model_created "JOHN" 3])) by run.
  split; [exact H|].
  exact (SelectorDIC_scored_every_word Toy.size_lib Toy.john_selector []
           _ _ _ H).
Defined.

